(** * nuke-mcp: the tool modules, the server module and the batch model

    A shallow embedding of the JavaScript sources
      - tools/basic-operations.js   ([basicOperations])
      - tools/node-organization.js  ([nodeOrganization])
      - tools/advanced-vfx.js       ([advancedVfxOperations])
      - the server module           ([registerTools], the two resources)
    together with the properties the specification states about them.

    JavaScript strings are Rocq strings holding the UTF-8 encoding of the
    text (well-formed text: a lone surrogate has no encoding).  JavaScript
    numbers are binary64 values, see [Number]. *)

From Stdlib Require Import ZArith List String Ascii Bool Lia Permutation.
From Stdlib Require Import DecimalString.
Import ListNotations.
Local Open Scope string_scope.

(** * JavaScript numbers *)

Module Number.

(** A binary64 value: [Finite s m e] is (-1)^s * m * 2^e. *)
Inductive t : Set :=
| NaN
| Infinity (negative : bool)
| Zero (negative : bool)
| Finite (negative : bool) (mantissa : positive) (exponent : Z).

Local Open Scope Z_scope.

(** The rational [num / den] divided by [2^e], as a fraction. *)
Definition scale2 (num den e : Z) : Z * Z :=
  if 0 <=? e then (num, den * 2 ^ e) else (num * 2 ^ (- e), den).

(** The rational [num / den] multiplied by [10^e], as a fraction. *)
Definition scale10 (num den e : Z) : Z * Z :=
  if 0 <=? e then (num * 10 ^ e, den) else (num, den * 10 ^ (- e)).

(** [floor (log2 (num / den))] for a positive fraction. *)
Definition floor_log2 (num den : Z) : Z :=
  let l := Z.log2 num - Z.log2 den in
  let '(n, d) := scale2 num den l in
  if d <=? n then l else l - 1.

(** Round to nearest, ties to even. *)
Definition round_half_even (n d : Z) : Z :=
  let q := n / d in
  let r := n mod d in
  match 2 * r ?= d with
  | Lt => q
  | Gt => q + 1
  | Eq => if Z.even q then q else q + 1
  end.

(** The binary64 value of the positive real [num / den]: the
    round-to-nearest, ties-to-even conversion of ECMA-262. *)
Definition round_pos (negative : bool) (num den : Z) : t :=
  let e := Z.max (floor_log2 num den - 52) (-1074) in
  let '(n, d) := scale2 num den e in
  let m := round_half_even n d in
  let '(m, e) := if m =? 2 ^ 53 then (2 ^ 52, e + 1) else (m, e) in
  if 971 <? e then Infinity negative
  else match m with
       | Zpos p => Finite negative p e
       | _ => Zero negative
       end.

(** The value of a decimal literal [digits * 10^exp10] of the source. *)
Definition of_decimal (digits exp10 : Z) : t :=
  match digits with
  | Z0 => Zero false
  | Zpos _ => let '(n, d) := scale10 digits 1 exp10 in round_pos false n d
  | Zneg _ => let '(n, d) := scale10 (- digits) 1 exp10 in round_pos true n d
  end.

(** The value of the JSON number [-? digits * 10^exp10]; the sign of a zero
    is kept. *)
Definition of_parts (negative : bool) (digits exp10 : Z) : t :=
  match digits with
  | Zpos _ => let '(n, d) := scale10 digits 1 exp10 in round_pos negative n d
  | _ => Zero negative
  end.

Definition of_Z (z : Z) : t := of_decimal z 0.
Definition of_nat (n : nat) : t := of_Z (Z.of_nat n).

Definition isNaN (x : t) : bool :=
  match x with NaN => true | _ => false end.

Definition isFinite (x : t) : bool :=
  match x with Zero _ | Finite _ _ _ => true | _ => false end.

Definition eqb (x y : t) : bool :=
  match x, y with
  | NaN, NaN => true
  | Infinity a, Infinity b => Bool.eqb a b
  | Zero a, Zero b => Bool.eqb a b
  | Finite a m e, Finite b m' e' => Bool.eqb a b && Pos.eqb m m' && Z.eqb e e'
  | _, _ => false
  end.

(** Decimal digits of a non-negative integer. *)
Definition decimal (z : Z) : string :=
  NilZero.string_of_uint (N.to_uint (Z.to_N z)).

Definition zeros (n : Z) : string :=
  string_of_list_ascii (repeat "0"%char (Z.to_nat n)).

(** [n] with [10^(n-1) <= num/den < 10^n]. *)
Definition decimal_exponent (num den : Z) : Z :=
  let n0 := (floor_log2 num den * 30103) / 100000 - 1 in
  let below n := let '(a, b) := scale10 num den (- n) in a <? b in
  if below n0 then n0
  else if below (n0 + 1) then n0 + 1
  else if below (n0 + 2) then n0 + 2
  else if below (n0 + 3) then n0 + 3
  else n0 + 4.

(** The candidates with [k] digits: the integers [s] next to
    [v / 10^(n-k)] whose product with [10^(n-k)] converts back to [x];
    of two, the closer one, and the even one at equal distance. *)
Definition shortest_at (x : t) (num den n k : Z) : option Z :=
  let '(a, b) := scale10 num den (k - n) in
  let lo := a / b in
  let hi := lo + 1 in
  let back s := let '(c, d) := scale10 s 1 (n - k) in eqb (round_pos false c d) x in
  match back lo && (10 ^ (k - 1) <=? lo), back hi with
  | true, true =>
      match 2 * (a mod b) ?= b with
      | Lt => Some lo
      | Gt => Some hi
      | Eq => if Z.even lo then Some lo else Some hi
      end
  | true, false => Some lo
  | false, true => Some hi
  | false, false => None
  end.

Fixpoint shortest_from (fuel : nat) (x : t) (num den n k : Z) : Z * Z :=
  match fuel with
  | O => (k, fst (scale10 num den (k - n)) / snd (scale10 num den (k - n)))
  | S fuel =>
      match shortest_at x num den n k with
      | Some s => (k, s)
      | None => shortest_from fuel x num den n (k + 1)
      end
  end.

Fixpoint strip_zeros (fuel : nat) (s : Z) : Z :=
  match fuel with
  | O => s
  | S fuel => if (s mod 10 =? 0) && negb (s =? 0) then strip_zeros fuel (s / 10) else s
  end.

(** Number::toString(x, 10) on a positive finite value [m * 2^e]:
    the digits [s], their number [k] and the exponent [n] of steps 5-7. *)
Definition shortest (m : positive) (e : Z) : string * Z :=
  let '(num, den) := scale2 (Zpos m) 1 (- e) in
  let x := round_pos false num den in
  let n := decimal_exponent num den in
  let '(k, s) := shortest_from 17 x num den n 1 in
  let digits := decimal s in
  let n := n - k + Z.of_nat (String.length digits) in
  (decimal (strip_zeros 20 s), n).

Definition format (digits : string) (n : Z) : string :=
  let k := Z.of_nat (String.length digits) in
  if (-5 <=? n) && (n <=? 21) then
    if k <=? n then digits ++ zeros (n - k)
    else if 0 <? n then
      substring 0 (Z.to_nat n) digits ++ "." ++
      substring (Z.to_nat n) (Z.to_nat (k - n)) digits
    else "0." ++ zeros (- n) ++ digits
  else
    let e := n - 1 in
    let sign := if e <? 0 then "-" else "+" in
    if k =? 1 then digits ++ "e" ++ sign ++ decimal (Z.abs e)
    else substring 0 1 digits ++ "." ++ substring 1 (Z.to_nat (k - 1)) digits
         ++ "e" ++ sign ++ decimal (Z.abs e).

(** Number::toString(x), radix 10. *)
Definition toString (x : t) : string :=
  match x with
  | NaN => "NaN"
  | Zero _ => "0"
  | Infinity false => "Infinity"
  | Infinity true => "-Infinity"
  | Finite s m e =>
      let '(digits, n) := shortest m e in
      (if s then "-" else "") ++ format digits n
  end.

End Number.


(** * JavaScript values and JSON *)

(** The values a JSON text denotes, and [undefined]. An object is the list
    of its own properties in enumeration order. *)
#[warnings="-register-all"]
Inductive Value : Set :=
| VUndefined
| VNull
| VBoolean (b : bool)
| VNumber (n : Number.t)
| VString (s : string)
| VArray (elements : list Value)
| VObject (properties : list (string * Value)).

(** [object[key]] for an own property; [undefined] when there is none. *)
Fixpoint getOwn (key : string) (properties : list (string * Value)) : Value :=
  match properties with
  | [] => VUndefined
  | (k, v) :: rest => if String.eqb k key then v else getOwn key rest
  end.

Definition hasOwn (key : string) (properties : list (string * Value)) : bool :=
  existsb (fun p => String.eqb (fst p) key) properties.

(** Array.prototype.join on an array of strings. *)
Fixpoint join (separator : string) (l : list string) : string :=
  match l with
  | [] => ""
  | [s] => s
  | s :: rest => s ++ separator ++ join separator rest
  end.

Module JSON.

Definition hex_digit (n : N) : ascii :=
  match n with
  | 0 => "0" | 1 => "1" | 2 => "2" | 3 => "3" | 4 => "4" | 5 => "5"
  | 6 => "6" | 7 => "7" | 8 => "8" | 9 => "9" | 10 => "a" | 11 => "b"
  | 12 => "c" | 13 => "d" | 14 => "e" | _ => "f"
  end%N%char.

(** UnicodeEscape of a code unit below 256. *)
Definition unicode_escape (c : ascii) : string :=
  let n := N_of_ascii c in
  String "\" (String "u" (String "0" (String "0"
    (String (hex_digit (n / 16)) (String (hex_digit (n mod 16)) ""))))).

(** The escape of one character in QuoteJSONString. *)
Definition escape (c : ascii) : string :=
  let n := N_of_ascii c in
  if (n =? 8)%N then "\b"
  else if (n =? 9)%N then "\t"
  else if (n =? 10)%N then "\n"
  else if (n =? 12)%N then "\f"
  else if (n =? 13)%N then "\r"
  else if (n =? 34)%N then String "\" (String (ascii_of_N 34) "")
  else if (n =? 92)%N then "\\"
  else if (n <? 32)%N then unicode_escape c
  else String c "".

Fixpoint escape_all (s : string) : string :=
  match s with
  | EmptyString => ""
  | String c rest => escape c ++ escape_all rest
  end.

Definition dquote : string := String (ascii_of_N 34) "".

(** QuoteJSONString. *)
Definition quote (s : string) : string := dquote ++ escape_all s ++ dquote.

Definition newline : string := String (ascii_of_N 10) "".

Definition wrap (gap stepback indent opening closing : string) (partial : list string)
  : string :=
  match partial with
  | [] => opening ++ closing
  | _ =>
      if String.eqb gap "" then opening ++ join "," partial ++ closing
      else opening ++ newline ++ indent
           ++ join ("," ++ newline ++ indent) partial
           ++ newline ++ stepback ++ closing
  end.

(** SerializeJSONProperty; [None] is the result [undefined]. *)
Fixpoint serialize (gap indent : string) (v : Value) : option string :=
  match v with
  | VUndefined => None
  | VNull => Some "null"
  | VBoolean b => Some (if b then "true" else "false")
  | VNumber n => Some (if Number.isFinite n then Number.toString n else "null")
  | VString s => Some (quote s)
  | VArray elements =>
      let inner := indent ++ gap in
      Some (wrap gap indent inner "[" "]"
        (map (fun e => match serialize gap inner e with
                       | Some s => s
                       | None => "null"
                       end) elements))
  | VObject properties =>
      let inner := indent ++ gap in
      Some (wrap gap indent inner "{" "}"
        (flat_map (fun p => match serialize gap inner (snd p) with
                            | Some s => [quote (fst p) ++ ":"
                                         ++ (if String.eqb gap "" then "" else " ") ++ s]
                            | None => []
                            end) properties))
  end.

(** [JSON.stringify(value)] and [JSON.stringify(value, null, 2)]. *)
Definition stringify (v : Value) : option string := serialize "" "" v.
Definition stringify2 (v : Value) : option string := serialize "  " "" v.

(** ** Reading JSON

    [parse] reads a JSON text as JSON.parse does and answers [None] on a
    text that is not JSON, and also on the texts it leaves out: an escape of
    a surrogate, an object with a repeated key or with a key made of digits
    (JavaScript reorders those). *)

Definition is_whitespace (c : ascii) : bool :=
  let n := N_of_ascii c in
  ((n =? 32) || (n =? 9) || (n =? 10) || (n =? 13))%N.

Fixpoint skip_whitespace (s : string) : string :=
  match s with
  | String c rest => if is_whitespace c then skip_whitespace rest else s
  | EmptyString => s
  end.

Definition hex_value (c : ascii) : option N :=
  let n := N_of_ascii c in
  if ((48 <=? n) && (n <=? 57))%N then Some (n - 48)%N
  else if ((97 <=? n) && (n <=? 102))%N then Some (n - 87)%N
  else if ((65 <=? n) && (n <=? 70))%N then Some (n - 55)%N
  else None.

(** The UTF-8 encoding of a code point of the basic plane. *)
Definition utf8 (cp : N) : option string :=
  if (cp <? 128)%N then Some (String (ascii_of_N cp) "")
  else if (cp <? 2048)%N then
    Some (String (ascii_of_N (192 + cp / 64)) (String (ascii_of_N (128 + cp mod 64)) ""))
  else if ((55296 <=? cp) && (cp <=? 57343))%N then None
  else
    Some (String (ascii_of_N (224 + cp / 4096))
           (String (ascii_of_N (128 + (cp / 64) mod 64))
             (String (ascii_of_N (128 + cp mod 64)) ""))).

Definition unescape (c : ascii) : option ascii :=
  let n := N_of_ascii c in
  if (n =? 34)%N then Some c
  else if (n =? 92)%N then Some c
  else if (n =? 47)%N then Some c
  else if (n =? 98)%N then Some (ascii_of_N 8)
  else if (n =? 102)%N then Some (ascii_of_N 12)
  else if (n =? 110)%N then Some (ascii_of_N 10)
  else if (n =? 114)%N then Some (ascii_of_N 13)
  else if (n =? 116)%N then Some (ascii_of_N 9)
  else None.

Definition prepend (prefix : string) (r : option (string * string))
  : option (string * string) :=
  match r with
  | Some (s, rest) => Some (prefix ++ s, rest)
  | None => None
  end.

(** The characters of a string literal after its opening quote, up to the
    closing quote, and the text that follows. *)
Fixpoint parse_chars (s : string) : option (string * string) :=
  match s with
  | EmptyString => None
  | String c rest =>
      let n := N_of_ascii c in
      if (n =? 34)%N then Some ("", rest)
      else if (n =? 92)%N then
        match rest with
        | String e rest1 =>
            match unescape e with
            | Some ch => prepend (String ch "") (parse_chars rest1)
            | None =>
                if (N_of_ascii e =? 117)%N then
                  match rest1 with
                  | String h1 (String h2 (String h3 (String h4 rest2))) =>
                      match hex_value h1, hex_value h2, hex_value h3, hex_value h4 with
                      | Some a, Some b, Some c, Some d =>
                          match utf8 (((a * 16 + b) * 16 + c) * 16 + d)%N with
                          | Some bytes => prepend bytes (parse_chars rest2)
                          | None => None
                          end
                      | _, _, _, _ => None
                      end
                  | _ => None
                  end
                else None
            end
        | EmptyString => None
        end
      else if (n <? 32)%N then None
      else prepend (String c "") (parse_chars rest)
  end.

Definition is_digit (c : ascii) : bool :=
  let n := N_of_ascii c in ((48 <=? n) && (n <=? 57))%N.

(** The digits at the head of a text: their value after [acc], their
    number, and the text that follows. *)
Fixpoint parse_digits (s : string) (acc : Z) (count : Z) : Z * Z * string :=
  match s with
  | String c rest =>
      if is_digit c
      then parse_digits rest (acc * 10 + Z.of_N (N_of_ascii c) - 48)%Z (count + 1)%Z
      else (acc, count, s)
  | EmptyString => (acc, count, s)
  end.

Definition parse_exponent (s : string) : option (Z * string) :=
  match s with
  | String c rest =>
      if ((N_of_ascii c =? 101) || (N_of_ascii c =? 69))%N then
        let '(negative, rest) :=
          match rest with
          | String sign rest1 =>
              if (N_of_ascii sign =? 45)%N then (true, rest1)
              else if (N_of_ascii sign =? 43)%N then (false, rest1)
              else (false, rest)
          | EmptyString => (false, rest)
          end in
        let '(e, count, rest) := parse_digits rest 0 0 in
        if (count =? 0)%Z then None
        else Some (if negative then (- e)%Z else e, rest)
      else Some (0%Z, s)
  | EmptyString => Some (0%Z, s)
  end.

Definition parse_number (s : string) : option (Number.t * string) :=
  let '(negative, s) :=
    match s with
    | String c rest => if (N_of_ascii c =? 45)%N then (true, rest) else (false, s)
    | EmptyString => (false, s)
    end in
  let leading_zero :=
    match s with
    | String c (String d _) => (N_of_ascii c =? 48)%N && is_digit d
    | _ => false
    end in
  let '(int, count, rest) := parse_digits s 0 0 in
  if (count =? 0)%Z || leading_zero then None
  else
    let fraction :=
      match rest with
      | String c rest1 =>
          if (N_of_ascii c =? 46)%N then
            let '(digits, fcount, rest2) := parse_digits rest1 int 0 in
            if (fcount =? 0)%Z then None else Some (digits, fcount, rest2)
          else Some (int, 0%Z, rest)
      | EmptyString => Some (int, 0%Z, rest)
      end in
    match fraction with
    | None => None
    | Some (digits, fcount, rest) =>
        match parse_exponent rest with
        | None => None
        | Some (e, rest) => Some (Number.of_parts negative digits (e - fcount), rest)
        end
    end.

Definition all_digits (key : string) : bool :=
  negb (String.eqb key "") && forallb is_digit (list_ascii_of_string key).

(** [Some rest] when the text starts with the word. *)
Fixpoint after (word s : string) : option string :=
  match word, s with
  | EmptyString, _ => Some s
  | String c word, String d rest => if Ascii.eqb c d then after word rest else None
  | String _ _, EmptyString => None
  end.

(** A value, given the readers of the members of an object and of the
    elements of an array. *)
Definition value_body
  (members : string -> option (list (string * Value) * string))
  (elements : string -> option (list Value * string))
  (s : string) : option (Value * string) :=
  match skip_whitespace s with
  | EmptyString => None
  | String c rest =>
      let n := N_of_ascii c in
      if (n =? 123)%N then
        match skip_whitespace rest with
        | String d rest1 =>
            if (N_of_ascii d =? 125)%N then Some (VObject [], rest1)
            else option_map (fun r => (VObject (fst r), snd r)) (members rest)
        | EmptyString => None
        end
      else if (n =? 91)%N then
        match skip_whitespace rest with
        | String d rest1 =>
            if (N_of_ascii d =? 93)%N then Some (VArray [], rest1)
            else option_map (fun r => (VArray (fst r), snd r)) (elements rest)
        | EmptyString => None
        end
      else if (n =? 34)%N then
        option_map (fun r => (VString (fst r), snd r)) (parse_chars rest)
      else
        match after "true" (String c rest), after "false" (String c rest),
              after "null" (String c rest) with
        | Some rest1, _, _ => Some (VBoolean true, rest1)
        | _, Some rest1, _ => Some (VBoolean false, rest1)
        | _, _, Some rest1 => Some (VNull, rest1)
        | None, None, None =>
            option_map (fun r => (VNumber (fst r), snd r)) (parse_number (String c rest))
        end
  end.

(** The members of an object up to its closing brace. *)
Definition members_body
  (value : string -> option (Value * string))
  (members : string -> option (list (string * Value) * string))
  (s : string) : option (list (string * Value) * string) :=
  match skip_whitespace s with
  | String c rest =>
      if (N_of_ascii c =? 34)%N then
        match parse_chars rest with
        | Some (key, rest1) =>
            match skip_whitespace rest1 with
            | String colon rest2 =>
                if (N_of_ascii colon =? 58)%N then
                  match value rest2 with
                  | Some (v, rest3) =>
                      match skip_whitespace rest3 with
                      | String d rest4 =>
                          if (N_of_ascii d =? 125)%N then
                            if all_digits key then None
                            else Some ([(key, v)], rest4)
                          else if (N_of_ascii d =? 44)%N then
                            match members rest4 with
                            | Some (others, rest5) =>
                                if all_digits key
                                   || existsb (fun m => String.eqb (fst m) key) others
                                then None
                                else Some ((key, v) :: others, rest5)
                            | None => None
                            end
                          else None
                      | EmptyString => None
                      end
                  | None => None
                  end
                else None
            | EmptyString => None
            end
        | None => None
        end
      else None
  | EmptyString => None
  end.

(** The elements of an array up to its closing bracket. *)
Definition elements_body
  (value : string -> option (Value * string))
  (elements : string -> option (list Value * string))
  (s : string) : option (list Value * string) :=
  match value s with
  | Some (v, rest) =>
      match skip_whitespace rest with
      | String d rest1 =>
          if (N_of_ascii d =? 93)%N then Some ([v], rest1)
          else if (N_of_ascii d =? 44)%N then
            match elements rest1 with
            | Some (others, rest2) => Some (v :: others, rest2)
            | None => None
            end
          else None
      | EmptyString => None
      end
  | None => None
  end.

(** The three readers, with fuel for their calls of one another. *)
Fixpoint parse_value (fuel : nat) (s : string) : option (Value * string) :=
  match fuel with
  | O => None
  | S fuel =>
      value_body (fun t => parse_members fuel t) (fun t => parse_elements fuel t) s
  end
with parse_members (fuel : nat) (s : string) : option (list (string * Value) * string) :=
  match fuel with
  | O => None
  | S fuel =>
      members_body (fun t => parse_value fuel t) (fun t => parse_members fuel t) s
  end
with parse_elements (fuel : nat) (s : string) : option (list Value * string) :=
  match fuel with
  | O => None
  | S fuel =>
      elements_body (fun t => parse_value fuel t) (fun t => parse_elements fuel t) s
  end.

(** [JSON.parse(text)] *)
Definition parse (text : string) : option Value :=
  match parse_value (String.length text) text with
  | Some (v, rest) =>
      match skip_whitespace rest with
      | EmptyString => Some v
      | String _ _ => None
      end
  | None => None
  end.

End JSON.

(** * Zod schemas

    The schema constructors the tool modules use, with zod 3 parsing:
    [z.object] keeps the keys of its shape and strips the others, a missing
    key reads as [undefined], [z.number] refuses NaN, and [describe] has no
    effect on parsing. *)

Module z.

#[warnings="-register-all"]
Inductive ZodType : Set :=
| string
| number
| boolean
| enum (values : list String.string)
| array (element : ZodType)
| optional (inner : ZodType)
| record (valueType : ZodType)
| union (options : list ZodType)
| object (shape : list (String.string * ZodType)).

(** A raw shape: the plain object of zod types a tool declares. *)
Definition ZodRawShape : Set := list (String.string * ZodType).

Definition sum_of (d : ZodType -> Set) : list ZodType -> Set :=
  fix go (ts : list ZodType) : Set :=
    match ts with
    | [] => Empty_set
    | t :: rest => (d t + go rest)%type
    end.

Definition product_of (d : ZodType -> Set) : ZodRawShape -> Set :=
  fix go (shape : ZodRawShape) : Set :=
    match shape with
    | [] => unit
    | (_, t) :: rest => (d t * go rest)%type
    end.

(** [z.infer]: the type of the values a schema produces. *)
Fixpoint infer (t : ZodType) : Set :=
  match t with
  | string => String.string
  | number => Number.t
  | boolean => bool
  | enum _ => String.string
  | array element => list (infer element)
  | optional inner => option (infer inner)
  | record valueType => list (String.string * infer valueType)
  | union options => sum_of infer options
  | object shape => product_of infer shape
  end.

Definition inferShape (shape : ZodRawShape) : Set := product_of infer shape.

Fixpoint traverse {A B : Type} (f : A -> option B) (l : list A) : option (list B) :=
  match l with
  | [] => Some []
  | a :: rest =>
      match f a, traverse f rest with
      | Some b, Some bs => Some (b :: bs)
      | _, _ => None
      end
  end.

Definition parse_union (d : ZodType -> Set) (p : forall t, Value -> option (d t))
  : forall ts, Value -> option (sum_of d ts) :=
  fix go (ts : list ZodType) : Value -> option (sum_of d ts) :=
    match ts return Value -> option (sum_of d ts) with
    | [] => fun _ => None
    | t :: rest => fun v =>
        match p t v with
        | Some x => Some (inl x)
        | None => option_map inr (go rest v)
        end
    end.

Definition parse_shape (d : ZodType -> Set) (p : forall t, Value -> option (d t))
  : forall shape, list (String.string * Value) -> option (product_of d shape) :=
  fix go (shape : ZodRawShape) : list (String.string * Value) -> option (product_of d shape) :=
    match shape return list (String.string * Value) -> option (product_of d shape) with
    | [] => fun _ => Some tt
    | (key, t) :: rest => fun properties =>
        match p t (getOwn key properties), go rest properties with
        | Some x, Some xs => Some (x, xs)
        | _, _ => None
        end
    end.

(** [schema.safeParse(value)]: [Some data] on success, [None] on a ZodError.
    A record checks the value of every property and then leaves the
    property named __proto__ out of the data. *)
Fixpoint parse (t : ZodType) : Value -> option (infer t) :=
  match t return Value -> option (infer t) with
  | string => fun v => match v with VString s => Some s | _ => None end
  | number => fun v =>
      match v with
      | VNumber n => if Number.isNaN n then None else Some n
      | _ => None
      end
  | boolean => fun v => match v with VBoolean b => Some b | _ => None end
  | enum values => fun v =>
      match v with
      | VString s => if existsb (String.eqb s) values then Some s else None
      | _ => None
      end
  | array element => fun v =>
      match v with
      | VArray elements => traverse (parse element) elements
      | _ => None
      end
  | optional inner => fun v =>
      match v with
      | VUndefined => Some None
      | _ => option_map Some (parse inner v)
      end
  | record valueType => fun v =>
      match v with
      | VObject properties =>
          option_map (filter (fun p => negb (String.eqb (fst p) "__proto__")))
            (traverse (fun p => option_map (pair (fst p)) (parse valueType (snd p)))
               properties)
      | _ => None
      end
  | union options => parse_union infer parse options
  | object shape => fun v =>
      match v with
      | VObject properties => parse_shape infer parse shape properties
      | _ => None
      end
  end.

(** [z.object(shape).safeParse(value)], what the server does with the raw
    shape of a tool. *)
Definition parseShape (shape : ZodRawShape) (v : Value) : option (inferShape shape) :=
  parse (object shape) v.

Definition reify_union (d : ZodType -> Set) (r : forall t, d t -> Value)
  : forall ts, sum_of d ts -> Value :=
  fix go (ts : list ZodType) : sum_of d ts -> Value :=
    match ts return sum_of d ts -> Value with
    | [] => fun x => match x with end
    | t :: rest => fun x =>
        match x with
        | inl a => r t a
        | inr b => go rest b
        end
    end.

Definition reify_shape (d : ZodType -> Set) (r : forall t, d t -> Value)
  : forall shape, product_of d shape -> list (String.string * Value) :=
  fix go (shape : ZodRawShape) : product_of d shape -> list (String.string * Value) :=
    match shape return product_of d shape -> list (String.string * Value) with
    | [] => fun _ => []
    | (key, t) :: rest => fun x =>
        match r t (fst x) with
        | VUndefined => go rest (snd x)
        | v => (key, v) :: go rest (snd x)
        end
    end.

(** The JavaScript value that parsed data is. *)
Fixpoint reify (t : ZodType) : infer t -> Value :=
  match t return infer t -> Value with
  | string => VString
  | number => VNumber
  | boolean => VBoolean
  | enum _ => VString
  | array element => fun l => VArray (map (reify element) l)
  | optional inner => fun o =>
      match o with
      | Some x => reify inner x
      | None => VUndefined
      end
  | record valueType => fun l =>
      VObject (map (fun p => (fst p, reify valueType (snd p))) l)
  | union options => reify_union infer reify options
  | object shape => fun x => VObject (reify_shape infer reify shape x)
  end.

End z.

(** * Promises and tool results *)

(** The error kinds of the specification. *)
Inductive ErrorKind : Set :=
| DuplicateOperation
| UnknownOperation
| DanglingReference
| ValidationError
| MissingOutputField
| ExternalExecutionError
| Cancelled.

Inductive Settled (A : Type) : Type :=
| Fulfilled (value : A)
| Rejected (reason : ErrorKind).
Arguments Fulfilled {A} value.
Arguments Rejected {A} reason.

(** An asynchronous computation over the state [W] outside its arguments
    (the host application, the module variables): it may read and change
    that state, and settles. *)
Definition Promise (W A : Type) : Type := W -> Settled A * W.

Definition resolve {W A : Type} (a : A) : Promise W A := fun w => (Fulfilled a, w).
Definition reject {W A : Type} (e : ErrorKind) : Promise W A := fun w => (Rejected e, w).

Definition bind {W A B : Type} (m : Promise W A) (k : A -> Promise W B) : Promise W B :=
  fun w =>
    match m w with
    | (Fulfilled a, w') => k a w'
    | (Rejected e, w') => (Rejected e, w')
    end.

Declare Scope promise_scope.
Delimit Scope promise_scope with promise.
Notation "x <- m ;; k" := (bind m (fun x => k))
  (at level 61, m at next level, right associativity) : promise_scope.

Record TextContent : Set := { type : string; text : string }.
Record CallToolResult : Set := { content : list TextContent }.

(** One entry of a tool module. *)
Record Tool (W : Type) : Type := {
  schema : z.ZodRawShape;
  handler : z.inferShape schema -> Promise W CallToolResult;
  description : string
}.
Arguments schema {W} _.
Arguments handler {W} _ _ _.
Arguments description {W} _.

(** ** Template literals *)

Definition dq : string := JSON.dquote.

(** ["${s}"] between double quotes. *)
Definition quoted (s : string) : string := dq ++ s ++ dq.

(** ToBoolean of a string. *)
Definition truthy (s : string) : bool := negb (String.eqb s "").

(** [value ? yes : no] on an optional string: [undefined] and the empty
    string are falsy. *)
Definition ifString (o : option string) (yes : string -> string) (no : string) : string :=
  match o with
  | Some s => if truthy s then yes s else no
  | None => no
  end.

(** [value ? yes : no] on an optional object or array: only [undefined] is
    falsy. *)
Definition ifObject {A : Type} (o : option A) (yes : A -> string) (no : string) : string :=
  match o with
  | Some a => yes a
  | None => no
  end.

(** A default parameter value: it stands in for [undefined]. *)
Definition default {A : Type} (d : A) (o : option A) : A :=
  match o with
  | Some a => a
  | None => d
  end.

(** Array.prototype.push, as the array it leaves. *)
Definition push {A : Type} (l : list A) (a : A) : list A := (l ++ [a])%list.

(** ToString of the result of JSON.stringify. *)
Definition interpolate (o : option string) : string :=
  match o with
  | Some s => s
  | None => "undefined"
  end.

Definition positionSchema : z.ZodType :=
  z.object [("x", z.number); ("y", z.number)].

Definition knobValueSchema : z.ZodType :=
  z.union [z.string; z.number; z.boolean;
           z.array (z.union [z.string; z.number; z.boolean]);
           z.record (z.union [z.string; z.number; z.boolean])].

(** [(${position.x}, ${position.y})] *)
Definition coordinates (position : z.infer positionSchema) : string :=
  let '(x, (y, _)) := position in
  "(" ++ Number.toString x ++ ", " ++ Number.toString y ++ ")".

Definition textResult (s : string) : CallToolResult :=
  {| content := [ {| type := "text"; text := s |} ] |}.

(** * tools/basic-operations.js *)

Module basicOperations.

Module createNode.
Definition schema : z.ZodRawShape :=
  [("nodeType", z.string);
   ("name", z.optional z.string);
   ("position", z.optional positionSchema);
   ("inputs", z.optional (z.array z.string))].
Definition handler {W : Type} : z.inferShape schema -> Promise W CallToolResult :=
  fun '(nodeType, (name, (position, (inputs, _)))) =>
    resolve (textResult
      ("Created " ++ nodeType ++ " node"
       ++ ifString name (fun name => " named " ++ quoted name) ""
       ++ ifObject position (fun position => " at position " ++ coordinates position) ""
       ++ ifObject inputs (fun inputs => " with inputs: " ++ join ", " inputs) "")).
Definition description : string := "Create a new node in the Nuke node graph".
End createNode.

Module setKnobValue.
Definition schema : z.ZodRawShape :=
  [("nodeName", z.string); ("knobName", z.string); ("value", knobValueSchema)].
Definition handler {W : Type} : z.inferShape schema -> Promise W CallToolResult :=
  fun '(nodeName, (knobName, (value, _))) =>
    resolve (textResult
      ("Set knob " ++ quoted knobName ++ " on node " ++ quoted nodeName
       ++ " to value: " ++ interpolate (JSON.stringify (z.reify knobValueSchema value)))).
Definition description : string := "Set a value on a node's knob".
End setKnobValue.

Module getNode.
Definition schema : z.ZodRawShape := [("nodeName", z.string)].
Definition mockNodeInfo (nodeName : string) : Value :=
  VObject
    [("name", VString nodeName);
     ("type", VString "Blur");
     ("knobs", VObject [("size", VNumber (Number.of_decimal 25 (-1)));
                        ("channels", VString "rgba");
                        ("filter", VString "gaussian")]);
     ("position", VObject [("x", VNumber (Number.of_Z 100));
                           ("y", VNumber (Number.of_Z 200))])].
Definition handler {W : Type} : z.inferShape schema -> Promise W CallToolResult :=
  fun '(nodeName, _) =>
    resolve (textResult (interpolate (JSON.stringify2 (mockNodeInfo nodeName)))).
Definition description : string :=
  "Retrieve information about a node including its knob values".
End getNode.

Module execute.
Definition schema : z.ZodRawShape :=
  [("nodeName", z.string); ("frameRange", z.optional z.string)].
Definition handler {W : Type} : z.inferShape schema -> Promise W CallToolResult :=
  fun '(nodeName, (frameRange, _)) =>
    resolve (textResult
      ("Executing Write node " ++ quoted nodeName
       ++ ifString frameRange (fun frameRange => " for frame range: " ++ frameRange) "")).
Definition description : string := "Render frames from a Write node".
End execute.

Module connectNodes.
Definition schema : z.ZodRawShape :=
  [("fromNode", z.string); ("toNode", z.string); ("inputIndex", z.optional z.number)].
Definition handler {W : Type} : z.inferShape schema -> Promise W CallToolResult :=
  fun '(fromNode, (toNode, (inputIndex, _))) =>
    let inputIndex := default (Number.of_Z 0) inputIndex in
    resolve (textResult
      ("Connected node " ++ quoted fromNode ++ " to input "
       ++ Number.toString inputIndex ++ " of node " ++ quoted toNode)).
Definition description : string := "Connect two nodes in the node graph".
End connectNodes.

Module setNodePosition.
Definition schema : z.ZodRawShape :=
  [("nodeName", z.string); ("position", positionSchema)].
Definition handler {W : Type} : z.inferShape schema -> Promise W CallToolResult :=
  fun '(nodeName, (position, _)) =>
    resolve (textResult
      ("Set position of node " ++ quoted nodeName ++ " to " ++ coordinates position)).
Definition description : string := "Set the position of a node in the node graph".
End setNodePosition.

Module getNodePosition.
Definition schema : z.ZodRawShape := [("nodeName", z.string)].
Definition mockPosition : Value :=
  VObject [("x", VNumber (Number.of_Z 100)); ("y", VNumber (Number.of_Z 200))].
Definition handler {W : Type} : z.inferShape schema -> Promise W CallToolResult :=
  fun '(nodeName, _) =>
    resolve (textResult (interpolate (JSON.stringify2 mockPosition))).
Definition description : string := "Get the position of a node in the node graph".
End getNodePosition.

(** [Object.entries(basicOperations)] *)
Definition entries {W : Type} : list (string * Tool W) :=
  [("createNode", Build_Tool W createNode.schema createNode.handler createNode.description);
   ("setKnobValue",
     Build_Tool W setKnobValue.schema setKnobValue.handler setKnobValue.description);
   ("getNode", Build_Tool W getNode.schema getNode.handler getNode.description);
   ("execute", Build_Tool W execute.schema execute.handler execute.description);
   ("connectNodes",
     Build_Tool W connectNodes.schema connectNodes.handler connectNodes.description);
   ("setNodePosition",
     Build_Tool W setNodePosition.schema setNodePosition.handler
       setNodePosition.description);
   ("getNodePosition",
     Build_Tool W getNodePosition.schema getNodePosition.handler
       getNodePosition.description)].

End basicOperations.

(** * tools/node-organization.js *)

Module nodeOrganization.

Module createGroup.
Definition schema : z.ZodRawShape :=
  [("name", z.string);
   ("nodes", z.array z.string);
   ("position", z.optional positionSchema)].
Definition handler {W : Type} : z.inferShape schema -> Promise W CallToolResult :=
  fun '(name, (nodes, (position, _))) =>
    resolve (textResult
      ("Created group " ++ quoted name ++ " containing nodes: " ++ join ", " nodes
       ++ ifObject position (fun position => " at position " ++ coordinates position) "")).
Definition description : string := "Package nodes into a Nuke group".
End createGroup.

Module createLiveGroup.
Definition schema : z.ZodRawShape :=
  [("name", z.string);
   ("nodes", z.array z.string);
   ("position", z.optional positionSchema);
   ("savePath", z.optional z.string)].
Definition handler {W : Type} : z.inferShape schema -> Promise W CallToolResult :=
  fun '(name, (nodes, (position, (savePath, _)))) =>
    resolve (textResult
      ("Created LiveGroup " ++ quoted name ++ " containing nodes: " ++ join ", " nodes
       ++ ifObject position (fun position => " at position " ++ coordinates position) ""
       ++ ifString savePath (fun savePath => " and saved to " ++ quoted savePath) "")).
Definition description : string := "Create a LiveGroup for collaborative workflows".
End createLiveGroup.

Module loadTemplate.
Definition schema : z.ZodRawShape :=
  [("templatePath", z.string); ("position", z.optional positionSchema)].
Definition handler {W : Type} : z.inferShape schema -> Promise W CallToolResult :=
  fun '(templatePath, (position, _)) =>
    resolve (textResult
      ("Loaded template from " ++ quoted templatePath
       ++ ifObject position (fun position => " at position " ++ coordinates position) "")).
Definition description : string := "Load a Nuke toolset/template".
End loadTemplate.

Module saveTemplate.
Definition schema : z.ZodRawShape :=
  [("nodes", z.array z.string); ("savePath", z.string); ("name", z.string)].
Definition handler {W : Type} : z.inferShape schema -> Promise W CallToolResult :=
  fun '(nodes, (savePath, (name, _))) =>
    resolve (textResult
      ("Saved template " ++ quoted name ++ " containing nodes: " ++ join ", " nodes
       ++ " to " ++ quoted savePath)).
Definition description : string := "Save nodes as a Nuke toolset/template".
End saveTemplate.

Module autoArrangeNodes.
Definition schema : z.ZodRawShape :=
  [("nodes", z.optional (z.array z.string));
   ("direction", z.optional (z.enum ["horizontal"; "vertical"]));
   ("spacing", z.optional z.number)].
Definition handler {W : Type} : z.inferShape schema -> Promise W CallToolResult :=
  fun '(nodes, (direction, (spacing, _))) =>
    let direction := default "horizontal" direction in
    let spacing := default (Number.of_Z 100) spacing in
    resolve (textResult
      ("Auto-arranged "
       ++ ifObject nodes (fun nodes => "nodes: " ++ join ", " nodes) "all nodes"
       ++ " in " ++ direction ++ " direction with spacing " ++ Number.toString spacing)).
Definition description : string := "Automatically arrange nodes in the node graph".
End autoArrangeNodes.

Module createBackdrop.
Definition schema : z.ZodRawShape :=
  [("name", z.string);
   ("nodes", z.array z.string);
   ("label", z.optional z.string);
   ("color", z.optional z.string)].
Definition handler {W : Type} : z.inferShape schema -> Promise W CallToolResult :=
  fun '(name, (nodes, (label, (color, _)))) =>
    resolve (textResult
      ("Created backdrop " ++ quoted name ++ " containing nodes: " ++ join ", " nodes
       ++ ifString label (fun label => " with label " ++ quoted label) ""
       ++ ifString color (fun color => " and color " ++ quoted color) "")).
Definition description : string := "Create a backdrop to organize nodes".
End createBackdrop.

(** [Object.entries(nodeOrganization)] *)
Definition entries {W : Type} : list (string * Tool W) :=
  [("createGroup",
     Build_Tool W createGroup.schema createGroup.handler createGroup.description);
   ("createLiveGroup",
     Build_Tool W createLiveGroup.schema createLiveGroup.handler
       createLiveGroup.description);
   ("loadTemplate",
     Build_Tool W loadTemplate.schema loadTemplate.handler loadTemplate.description);
   ("saveTemplate",
     Build_Tool W saveTemplate.schema saveTemplate.handler saveTemplate.description);
   ("autoArrangeNodes",
     Build_Tool W autoArrangeNodes.schema autoArrangeNodes.handler
       autoArrangeNodes.description);
   ("createBackdrop",
     Build_Tool W createBackdrop.schema createBackdrop.handler
       createBackdrop.description)].

End nodeOrganization.

(** * tools/advanced-vfx.js *)

Module advancedVfxOperations.

(** [${outputName ? ` and output node "${outputName}"` : ''}] *)
Definition outputNode_suffix (outputName : option string) : string :=
  ifString outputName (fun outputName => " and output node " ++ quoted outputName) "".

Module setupCameraTracking.
Definition schema : z.ZodRawShape :=
  [("sourceName", z.string);
   ("trackingPoints", z.optional z.number);
   ("createScene", z.optional z.boolean);
   ("solveMethod", z.optional (z.enum ["MatchMove"; "3DEqualizer"; "PFTrack"]));
   ("exportPath", z.optional z.string)].
Definition handler {W : Type} : z.inferShape schema -> Promise W CallToolResult :=
  fun '(sourceName, (trackingPoints, (createScene, (solveMethod, (exportPath, _))))) =>
    let trackingPoints := default (Number.of_Z 10) trackingPoints in
    let createScene := default false createScene in
    let solveMethod := default "MatchMove" solveMethod in
    resolve (textResult
      ("Set up camera tracking for " ++ quoted sourceName ++ " with "
       ++ Number.toString trackingPoints ++ " tracking points using " ++ solveMethod
       ++ " method"
       ++ (if createScene then " and created a 3D scene" else "")
       ++ ifString exportPath
            (fun exportPath => " and exported tracking data to " ++ quoted exportPath) "")).
Definition description : string :=
  "Set up camera tracking with optional 3D scene creation".
End setupCameraTracking.

Module setupDeepCompositing.
Definition schema : z.ZodRawShape :=
  [("sourceName", z.string);
   ("outputName", z.optional z.string);
   ("operations",
     z.optional (z.array (z.enum ["DeepRecolor"; "DeepMerge"; "DeepToImage";
                                  "DeepFromImage"])))].
Definition handler {W : Type} : z.inferShape schema -> Promise W CallToolResult :=
  fun '(sourceName, (outputName, (operations, _))) =>
    let operations := default ["DeepRecolor"; "DeepToImage"] operations in
    resolve (textResult
      ("Set up deep compositing pipeline from " ++ quoted sourceName
       ++ " with operations: " ++ join ", " operations
       ++ outputNode_suffix outputName)).
Definition description : string := "Set up a deep compositing pipeline".
End setupDeepCompositing.

Module batchProcess.
Definition schema : z.ZodRawShape :=
  [("scriptPath", z.string);
   ("inputFiles", z.array z.string);
   ("outputDir", z.string);
   ("frameRange", z.optional z.string);
   ("fileType", z.optional z.string);
   ("threads", z.optional z.number)].
Definition handler {W : Type} : z.inferShape schema -> Promise W CallToolResult :=
  fun '(scriptPath, (inputFiles, (outputDir, (frameRange, (fileType, (threads, _)))))) =>
    let fileType := default "exr" fileType in
    let threads := default (Number.of_Z 4) threads in
    resolve (textResult
      ("Batch processed " ++ Number.toString (Number.of_nat (List.length inputFiles))
       ++ " files using script " ++ quoted scriptPath ++ " to output directory "
       ++ quoted outputDir ++ " as " ++ fileType ++ " files"
       ++ ifString frameRange (fun frameRange => " for frame range: " ++ frameRange) ""
       ++ " using " ++ Number.toString threads ++ " threads")).
Definition description : string :=
  "Batch process multiple files using a processing script".
End batchProcess.

Module setupMachineLearning.
Definition inferenceParamsSchema : z.ZodType :=
  z.record (z.union [z.string; z.number; z.boolean]).
Definition schema : z.ZodRawShape :=
  [("modelPath", z.string);
   ("inputNode", z.string);
   ("outputNode", z.optional z.string);
   ("gpuEnabled", z.optional z.boolean);
   ("inferenceParams", z.optional inferenceParamsSchema)].
Definition handler {W : Type} : z.inferShape schema -> Promise W CallToolResult :=
  fun '(modelPath, (inputNode, (outputNode, (gpuEnabled, (inferenceParams, _))))) =>
    let gpuEnabled := default true gpuEnabled in
    let inferenceParams := default [] inferenceParams in
    resolve (textResult
      ("Set up machine learning pipeline using model " ++ quoted modelPath
       ++ " with input node " ++ quoted inputNode
       ++ ifString outputNode
            (fun outputNode => " and output node " ++ quoted outputNode) ""
       ++ ", GPU " ++ (if gpuEnabled then "enabled" else "disabled")
       ++ ", inference parameters: "
       ++ interpolate (JSON.stringify (z.reify inferenceParamsSchema inferenceParams)))).
Definition description : string :=
  "Set up a machine learning pipeline using CopyCat".
End setupMachineLearning.

Module setupKeying.
Definition schema : z.ZodRawShape :=
  [("sourceName", z.string);
   ("screenColor", z.optional (z.enum ["green"; "blue"; "red"; "custom"]));
   ("customColor", z.optional z.string);
   ("keyerType", z.optional (z.enum ["Primatte"; "Keylight"; "IBK"; "UltraKeyer"]));
   ("despill", z.optional z.boolean);
   ("edgeRefinement", z.optional z.boolean);
   ("outputName", z.optional z.string)].
Definition handler {W : Type} : z.inferShape schema -> Promise W CallToolResult :=
  fun '(sourceName, (screenColor, (customColor, (keyerType, (despill,
         (edgeRefinement, (outputName, _))))))) =>
    let screenColor := default "green" screenColor in
    let customColor := default "#00FF00" customColor in
    let keyerType := default "Keylight" keyerType in
    let despill := default true despill in
    let edgeRefinement := default true edgeRefinement in
    let colorInfo := if String.eqb screenColor "custom" then customColor else screenColor in
    resolve (textResult
      ("Set up keying pipeline for " ++ quoted sourceName ++ " using " ++ keyerType
       ++ " with " ++ colorInfo ++ " screen"
       ++ (if despill then ", despill correction" else "")
       ++ (if edgeRefinement then ", edge refinement" else "")
       ++ outputNode_suffix outputName)).
Definition description : string :=
  "Set up a keying pipeline for green/blue screen footage".
End setupKeying.

Module setupMotionBlur.
Definition schema : z.ZodRawShape :=
  [("sourceName", z.string);
   ("vectorName", z.optional z.string);
   ("vectorMethod", z.optional (z.enum ["VectorGenerator"; "OpticalFlow"; "External"]));
   ("amount", z.optional z.number);
   ("samples", z.optional z.number);
   ("shutterAngle", z.optional z.number);
   ("outputName", z.optional z.string)].
(** The degree sign U+00B0, in UTF-8. *)
Definition degree : string := String (ascii_of_N 194) (String (ascii_of_N 176) "").
Definition handler {W : Type} : z.inferShape schema -> Promise W CallToolResult :=
  fun '(sourceName, (vectorName, (vectorMethod, (amount, (samples,
         (shutterAngle, (outputName, _))))))) =>
    let vectorMethod := default "VectorGenerator" vectorMethod in
    let amount := default (Number.of_decimal 10 (-1)) amount in
    let samples := default (Number.of_Z 10) samples in
    let shutterAngle := default (Number.of_Z 180) shutterAngle in
    resolve (textResult
      ("Set up motion blur for " ++ quoted sourceName
       ++ ifString vectorName
            (fun vectorName => " using vector node " ++ quoted vectorName)
            (" using " ++ vectorMethod)
       ++ " with amount " ++ Number.toString amount ++ ", "
       ++ Number.toString samples ++ " samples, "
       ++ Number.toString shutterAngle ++ degree ++ " shutter angle"
       ++ outputNode_suffix outputName)).
Definition description : string := "Set up a motion blur pipeline".
End setupMotionBlur.

Module createBasicComp.
Definition schema : z.ZodRawShape :=
  [("foregroundPath", z.string);
   ("backgroundPath", z.string);
   ("outputPath", z.string);
   ("includeGrade", z.optional z.boolean);
   ("includeLensEffects", z.optional z.boolean);
   ("includeGrain", z.optional z.boolean);
   ("colorSpace", z.optional z.string)].
Definition handler {W : Type} : z.inferShape schema -> Promise W CallToolResult :=
  fun '(foregroundPath, (backgroundPath, (outputPath, (includeGrade,
         (includeLensEffects, (includeGrain, (colorSpace, _))))))) =>
    let includeGrade := default true includeGrade in
    let includeLensEffects := default false includeLensEffects in
    let includeGrain := default true includeGrain in
    let colorSpace := default "ACES" colorSpace in
    let effects : list string := [] in
    let effects := if includeGrade then push effects "grade nodes" else effects in
    let effects := if includeLensEffects then push effects "lens effects" else effects in
    let effects := if includeGrain then push effects "film grain" else effects in
    resolve (textResult
      ("Created basic comp with foreground " ++ quoted foregroundPath
       ++ " and background " ++ quoted backgroundPath ++ " in " ++ colorSpace
       ++ " color space with output to " ++ quoted outputPath
       ++ (if Nat.ltb 0 (List.length effects)
           then " including " ++ join ", " effects else ""))).
Definition description : string :=
  "Create a basic compositing setup with foreground and background".
End createBasicComp.

Module setupStereoRig.
Definition schema : z.ZodRawShape :=
  [("sourceName", z.string);
   ("interocularDistance", z.optional z.number);
   ("convergenceDistance", z.optional z.number);
   ("outputName", z.optional z.string)].
Definition handler {W : Type} : z.inferShape schema -> Promise W CallToolResult :=
  fun '(sourceName, (interocularDistance, (convergenceDistance, (outputName, _)))) =>
    let interocularDistance := default (Number.of_decimal 65 (-1)) interocularDistance in
    let convergenceDistance := default (Number.of_Z 200) convergenceDistance in
    resolve (textResult
      ("Set up stereo rig for " ++ quoted sourceName ++ " with "
       ++ Number.toString interocularDistance ++ "cm interocular distance and "
       ++ Number.toString convergenceDistance ++ "cm convergence distance"
       ++ outputNode_suffix outputName)).
Definition description : string := "Set up a stereo 3D rig".
End setupStereoRig.

Module setupParticleSystem.
Definition schema : z.ZodRawShape :=
  [("emitterType", z.enum ["point"; "sphere"; "box"; "geometry"]);
   ("particleCount", z.optional z.number);
   ("lifetime", z.optional z.number);
   ("velocityControl", z.optional z.boolean);
   ("forceNodes",
     z.optional (z.array (z.enum ["gravity"; "wind"; "turbulence"; "custom"])));
   ("outputName", z.optional z.string)].
Definition handler {W : Type} : z.inferShape schema -> Promise W CallToolResult :=
  fun '(emitterType, (particleCount, (lifetime, (velocityControl, (forceNodes,
         (outputName, _)))))) =>
    let particleCount := default (Number.of_Z 1000) particleCount in
    let lifetime := default (Number.of_Z 100) lifetime in
    let velocityControl := default true velocityControl in
    let forceNodes := default ["gravity"] forceNodes in
    resolve (textResult
      ("Set up particle system with " ++ emitterType ++ " emitter, "
       ++ Number.toString particleCount ++ " particles, "
       ++ Number.toString lifetime ++ " frames lifetime"
       ++ (if velocityControl then ", velocity control" else "")
       ++ (if Nat.ltb 0 (List.length forceNodes)
           then ", forces: " ++ join ", " forceNodes else "")
       ++ outputNode_suffix outputName)).
Definition description : string := "Set up a particle system".
End setupParticleSystem.

Module setupLensDistortion.
Definition schema : z.ZodRawShape :=
  [("sourceName", z.string);
   ("distortionModel", z.optional (z.enum ["3DE4"; "NukeX"; "LensDistortion"]));
   ("k1", z.optional z.number);
   ("k2", z.optional z.number);
   ("undistort", z.optional z.boolean);
   ("outputName", z.optional z.string)].
Definition handler {W : Type} : z.inferShape schema -> Promise W CallToolResult :=
  fun '(sourceName, (distortionModel, (k1, (k2, (undistort, (outputName, _)))))) =>
    let distortionModel := default "LensDistortion" distortionModel in
    let k1 := default (Number.of_decimal 1 (-1)) k1 in
    let k2 := default (Number.of_decimal 5 (-2)) k2 in
    let undistort := default true undistort in
    resolve (textResult
      ("Set up " ++ (if undistort then "undistortion" else "distortion") ++ " for "
       ++ quoted sourceName ++ " using " ++ distortionModel
       ++ " model with parameters k1=" ++ Number.toString k1
       ++ ", k2=" ++ Number.toString k2
       ++ outputNode_suffix outputName)).
Definition description : string := "Set up lens distortion/undistortion".
End setupLensDistortion.

Module setupGrainManagement.
Definition schema : z.ZodRawShape :=
  [("sourceName", z.string);
   ("operation", z.enum ["add"; "match"; "remove"]);
   ("grainType",
     z.optional (z.enum ["Kodak5248"; "Kodak5279"; "KodakTri-X"; "custom"]));
   ("grainSize", z.optional z.number);
   ("grainAmount", z.optional z.number);
   ("outputName", z.optional z.string)].
Definition handler {W : Type} : z.inferShape schema -> Promise W CallToolResult :=
  fun '(sourceName, (operation, (grainType, (grainSize, (grainAmount,
         (outputName, _)))))) =>
    let grainType := default "Kodak5248" grainType in
    let grainSize := default (Number.of_decimal 10 (-1)) grainSize in
    let grainAmount := default (Number.of_decimal 5 (-1)) grainAmount in
    resolve (textResult
      ("Set up grain " ++ operation ++ " for " ++ quoted sourceName ++ " using "
       ++ grainType ++ " grain with size " ++ Number.toString grainSize
       ++ " and amount " ++ Number.toString grainAmount
       ++ outputNode_suffix outputName)).
Definition description : string :=
  "Set up film grain management (add, match, or remove grain)".
End setupGrainManagement.

(** [Object.entries(advancedVfxOperations)] *)
Definition entries {W : Type} : list (string * Tool W) :=
  [("setupCameraTracking",
     Build_Tool W setupCameraTracking.schema setupCameraTracking.handler
       setupCameraTracking.description);
   ("setupDeepCompositing",
     Build_Tool W setupDeepCompositing.schema setupDeepCompositing.handler
       setupDeepCompositing.description);
   ("batchProcess",
     Build_Tool W batchProcess.schema batchProcess.handler batchProcess.description);
   ("setupMachineLearning",
     Build_Tool W setupMachineLearning.schema setupMachineLearning.handler
       setupMachineLearning.description);
   ("setupKeying",
     Build_Tool W setupKeying.schema setupKeying.handler setupKeying.description);
   ("setupMotionBlur",
     Build_Tool W setupMotionBlur.schema setupMotionBlur.handler
       setupMotionBlur.description);
   ("createBasicComp",
     Build_Tool W createBasicComp.schema createBasicComp.handler
       createBasicComp.description);
   ("setupStereoRig",
     Build_Tool W setupStereoRig.schema setupStereoRig.handler
       setupStereoRig.description);
   ("setupParticleSystem",
     Build_Tool W setupParticleSystem.schema setupParticleSystem.handler
       setupParticleSystem.description);
   ("setupLensDistortion",
     Build_Tool W setupLensDistortion.schema setupLensDistortion.handler
       setupLensDistortion.description);
   ("setupGrainManagement",
     Build_Tool W setupGrainManagement.schema setupGrainManagement.handler
       setupGrainManagement.description)].

End advancedVfxOperations.

(** * The server module *)

(** A synchronous computation that returns or throws. *)
Inductive Completion (A : Type) : Type :=
| Normal (value : A)
| Throw (error : ErrorKind).
Arguments Normal {A} value.
Arguments Throw {A} error.

Definition andThen {A B : Type} (c : Completion A) (k : A -> Completion B) : Completion B :=
  match c with
  | Normal a => k a
  | Throw e => Throw e
  end.

(** [array.forEach(f)] for an [f] that updates a state and may throw. *)
Fixpoint forEach {A S : Type} (l : list A) (f : A -> S -> Completion S) (s : S)
  : Completion S :=
  match l with
  | [] => Normal s
  | a :: rest => andThen (f a s) (forEach rest f)
  end.

(** The two properties of a URL object the resource callbacks read. *)
Record URL : Set := { href : string; pathname : string }.

(** [string.split(separator)] for a separator of one character. *)
Fixpoint split (separator : ascii) (s : string) : list string :=
  match s with
  | EmptyString => [""]
  | String c rest =>
      if Ascii.eqb c separator then "" :: split separator rest
      else match split separator rest with
           | [] => [String c ""]
           | first :: others => String c first :: others
           end
  end.

(** [array.pop()], as the element it returns; [None] is [undefined]. *)
Fixpoint pop {A : Type} (l : list A) : option A :=
  match l with
  | [] => None
  | [a] => Some a
  | _ :: rest => pop rest
  end.

(** [value === literal] for a value that is a string or [undefined]. *)
Definition strictEquals (value : option string) (literal : string) : bool :=
  match value with
  | Some s => String.eqb s literal
  | None => false
  end.

(** What a property of [pythonBridgeCode] holds: a string, or a built-in
    function or object reached through the prototype, or [undefined]. *)
Inductive PropertyValue : Set :=
| PString (s : string)
| PBuiltIn (name : string)
| PUndefined.

(** ToBoolean *)
Definition ToBoolean (v : PropertyValue) : bool :=
  match v with
  | PString s => truthy s
  | PBuiltIn _ => true
  | PUndefined => false
  end.

Module Resource.

Record Contents : Set := { uri : string; text : PropertyValue }.
Record ReadResourceResult : Set := { contents : list Contents }.

Record t (W : Type) : Type := {
  list : List.list string;
  read : URL -> Promise W ReadResourceResult
}.
Arguments list {W} _.
Arguments read {W} _ _ _.

End Resource.

(** An ordinary object whose own properties hold strings, such as
    [pythonBridgeCode], which maps file names to source text. *)
Module OrdinaryObject.

(** The property names of %Object.prototype%. *)
Definition prototype : list string :=
  ["constructor"; "__defineGetter__"; "__defineSetter__"; "hasOwnProperty";
   "__lookupGetter__"; "__lookupSetter__"; "isPrototypeOf"; "propertyIsEnumerable";
   "toString"; "valueOf"; "__proto__"; "toLocaleString"].

Fixpoint own (properties : list (string * string)) (key : string) : option string :=
  match properties with
  | [] => None
  | (k, v) :: rest => if String.eqb k key then Some v else own rest key
  end.

(** [object[key]]: an own property, else a property of the prototype. *)
Definition get (properties : list (string * string)) (key : string) : PropertyValue :=
  match own properties key with
  | Some v => PString v
  | None => if existsb (String.eqb key) prototype then PBuiltIn key else PUndefined
  end.

(** [Object.keys(object)] *)
Definition keys (properties : list (string * string)) : list string :=
  map fst properties.

End OrdinaryObject.

(** An entry of the tool registry of the server: the schema, the callback
    and the description, which is undefined unless one was registered. *)
Module RegisteredTool.

Record t (W : Type) : Type := {
  inputSchema : z.ZodRawShape;
  callback : z.inferShape inputSchema -> Promise W CallToolResult;
  description : option string
}.
Arguments inputSchema {W} _.
Arguments callback {W} _ _ _.
Arguments description {W} _.

End RegisteredTool.

Module McpServer.

Record t (W : Type) : Type := {
  registeredTools : list (string * RegisteredTool.t W);
  registeredResources : list (string * Resource.t W)
}.
Arguments registeredTools {W} _.
Arguments registeredResources {W} _.

(** [new McpServer(...)] *)
Definition new {W : Type} : t W :=
  {| registeredTools := []; registeredResources := [] |}.

Fixpoint lookup {A : Type} (name : string) (l : list (string * A)) : option A :=
  match l with
  | [] => None
  | (k, a) :: rest => if String.eqb k name then Some a else lookup name rest
  end.

Record ToolOptions : Set := { description : string }.

(** Modelled from the spec: the method [tool] of the SDK server, which is
    not part of the repository. Registration fails with DuplicateOperation
    when the name is already present; otherwise an entry with the schema and
    the handler is added after the ones present. The method takes the
    description of a tool as a text between the name and the schema; the
    call of [registerTools] gives none there, and the object that it passes
    after the handler is not read: the entry has no description. *)
Definition tool {W : Type} (server : t W) (name : string) (schema : z.ZodRawShape)
  (handler : z.inferShape schema -> Promise W CallToolResult) (options : ToolOptions)
  : Completion (t W) :=
  match lookup name (registeredTools server) with
  | Some _ => Throw DuplicateOperation
  | None =>
      Normal {| registeredTools :=
                  registeredTools server
                    ++ [(name,
                         {| RegisteredTool.inputSchema := schema;
                            RegisteredTool.callback := handler;
                            RegisteredTool.description := None |})];
                registeredResources := registeredResources server |}
  end%list.

(** Modelled from the spec: the method [resource] of the SDK server; the
    entry is added after the ones present. *)
Definition resource {W : Type} (server : t W) (name : string) (list : list string)
  (read : URL -> Promise W Resource.ReadResourceResult) : Completion (t W) :=
  Normal {| registeredTools := registeredTools server;
            registeredResources :=
              (registeredResources server
                 ++ [(name, {| Resource.list := list; Resource.read := read |})])%list |}.

End McpServer.

(** The three guides of the resource [setupGuide]. *)
Module Guide.

(** The text with a double quote in place of every apostrophe. *)
Fixpoint doubleQuotes (s : string) : string :=
  match s with
  | EmptyString => EmptyString
  | String c rest =>
      String (if Ascii.eqb c "'" then ascii_of_N 34 else c) (doubleQuotes rest)
  end.

Definition setup : string :=
  "# Nuke MCP Bridge Setup Guide

1. Copy the Python bridge files to your .nuke directory:
   - nuke_bridge.py
   - nuke_bridge_vfx.py
   - nuke_bridge_enhanced.py
   - nuke_bridge_server.py
   - full_bridge.py
   - mcp_client.py

2. Add the following to your init.py in your .nuke directory:
   ```python
   import full_bridge
   ```

3. Launch Nuke and run the following in the Script Editor:
   ```python
   import nuke_bridge_server
   nuke_bridge_server.start_server()
   ```

4. The bridge server will start and listen for connections on port 8765 by default.
".

Definition usage : string :=
  "# Nuke MCP Bridge Usage Guide

## Basic Node Operations
- createNode: Create nodes with optional naming and input connections
- setKnobValue: Set values on node parameters
- getNode: Retrieve node information including knob values
- execute: Render frames from a Write node with frame range control
- connectNodes: Connect nodes in the node graph with input indexing
- setNodePosition/getNodePosition: Control node placement in the UI

## Node Organization
- createGroup: Package nodes into Nuke groups
- createLiveGroup: Create LiveGroups for collaborative workflows
- loadTemplate/saveTemplate: Load and save Nuke toolsets with positioning

## Advanced VFX Operations
- setupCameraTracking: Create tracker nodes, solve camera tracks, set up 3D scenes
- setupDeepCompositing: Set up pipelines for deep image processing
- batchProcess: Process multiple files using a processing script
- setupMachineLearning: Interface with CopyCat for ML-based tools
- setupKeying: Create a keying setup with pre-configured nodes
- setupMotionBlur: Create a motion blur setup
- createBasicComp: Create a basic compositing setup

## Project Management
- loadScript: Load a Nuke script
- saveScript: Save the current Nuke script
- configureProjectSettings: Configure project settings
- listNodes: List all nodes in the script
- filterNodes: Filter nodes by type or name
".

(** Written with apostrophes where the source has double quotes. *)
Definition examples : string :=
  doubleQuotes "# Nuke MCP Bridge Examples

## Example 1: Creating a Simple Compositing Tree
```json
{
  'operations': [
    {'tool': 'createNode', 'args': {'nodeType': 'Read', 'name': 'ReadInput', 'position': {'x': 0, 'y': 0}}},
    {'tool': 'setKnobValue', 'args': {'nodeName': 'ReadInput', 'knobName': 'file', 'value': '/path/to/input.exr'}},
    {'tool': 'createNode', 'args': {'nodeType': 'Grade', 'name': 'GradeNode', 'position': {'x': 0, 'y': 100}}},
    {'tool': 'connectNodes', 'args': {'fromNode': 'ReadInput', 'toNode': 'GradeNode', 'inputIndex': 0}},
    {'tool': 'setKnobValue', 'args': {'nodeName': 'GradeNode', 'knobName': 'gamma', 'value': 0.8}},
    {'tool': 'createNode', 'args': {'nodeType': 'Write', 'name': 'WriteOutput', 'position': {'x': 0, 'y': 200}}},
    {'tool': 'connectNodes', 'args': {'fromNode': 'GradeNode', 'toNode': 'WriteOutput', 'inputIndex': 0}},
    {'tool': 'setKnobValue', 'args': {'nodeName': 'WriteOutput', 'knobName': 'file', 'value': '/path/to/output.exr'}},
    {'tool': 'execute', 'args': {'nodeName': 'WriteOutput', 'frameRange': '1-10'}}
  ]
}
```

## Example 2: Setting Up Camera Tracking
```json
{
  'operations': [
    {'tool': 'createNode', 'args': {'nodeType': 'Read', 'name': 'PlateInput', 'position': {'x': 0, 'y': 0}}},
    {'tool': 'setKnobValue', 'args': {'nodeName': 'PlateInput', 'knobName': 'file', 'value': '/path/to/plate.exr'}},
    {'tool': 'setupCameraTracking', 'args': {'sourceName': 'PlateInput', 'trackingPoints': 15, 'createScene': true}}
  ]
}
```

## Example 3: Deep Compositing Setup
```json
{
  'operations': [
    {'tool': 'createNode', 'args': {'nodeType': 'Read', 'name': 'DeepInput', 'position': {'x': 0, 'y': 0}}},
    {'tool': 'setKnobValue', 'args': {'nodeName': 'DeepInput', 'knobName': 'file', 'value': '/path/to/deep.exr'}},
    {'tool': 'setupDeepCompositing', 'args': {'sourceName': 'DeepInput', 'outputName': 'DeepOutput'}}
  ]
}
```
".

End Guide.

Section ServerModule.

Context {W : Type}.

(** The two imports whose modules are not among the sources: the entries of
    the object [projectManagement] and the own properties of
    [pythonBridgeCode]. *)
Variable projectManagement : list (string * Tool W).
Variable pythonBridgeCode : list (string * string).

Definition registerTools (toolsObject : list (string * Tool W)) (server : McpServer.t W)
  : Completion (McpServer.t W) :=
  forEach toolsObject
    (fun '(name, tool) server =>
       McpServer.tool server name (schema tool) (handler tool)
         {| McpServer.description := description tool |})
    server.

Definition pythonBridge_list : list string :=
  ["nuke_bridge.py"; "nuke_bridge_vfx.py"; "nuke_bridge_enhanced.py";
   "nuke_bridge_server.py"; "full_bridge.py"; "mcp_client.py"].

Definition textContents (uri : URL) (text : PropertyValue) : Resource.ReadResourceResult :=
  {| Resource.contents := [ {| Resource.uri := href uri; Resource.text := text |} ] |}.

(** The callback of the resource [pythonBridge]. *)
Definition pythonBridge_read (uri : URL) : Promise W Resource.ReadResourceResult :=
  let path := pop (split "/" (pathname uri)) in
  if ToBoolean (OrdinaryObject.get pythonBridgeCode (interpolate path)) then
    resolve (textContents uri (OrdinaryObject.get pythonBridgeCode (interpolate path)))
  else
    resolve (textContents uri (PString ("Resource not found: " ++ interpolate path))).

Definition setupGuide_list : list string := ["setup"; "usage"; "examples"].

(** The callback of the resource [setupGuide]. *)
Definition setupGuide_read (uri : URL) : Promise W Resource.ReadResourceResult :=
  let path := pop (split "/" (pathname uri)) in
  if strictEquals path "setup" then
    resolve (textContents uri (PString Guide.setup))
  else if strictEquals path "usage" then
    resolve (textContents uri (PString Guide.usage))
  else if strictEquals path "examples" then
    resolve (textContents uri (PString Guide.examples))
  else
    resolve (textContents uri (PString "Available guides: setup, usage, examples")).

(** The statements of the module, in order: the server is created, the four
    tool objects are registered, the two resources are added. *)
Definition registerAllTools (server : McpServer.t W) : Completion (McpServer.t W) :=
  andThen (registerTools basicOperations.entries server) (fun server =>
  andThen (registerTools nodeOrganization.entries server) (fun server =>
  andThen (registerTools advancedVfxOperations.entries server) (fun server =>
  registerTools projectManagement server))).

Definition addResources (server : McpServer.t W) : Completion (McpServer.t W) :=
  andThen (McpServer.resource server "pythonBridge" pythonBridge_list pythonBridge_read)
    (fun server =>
  McpServer.resource server "setupGuide" setupGuide_list setupGuide_read).

Definition initialize : Completion (McpServer.t W) :=
  andThen (registerAllTools McpServer.new) addResources.

End ServerModule.

(** * The dispatch surface *)

Inductive Request : Set :=
| CallTool (name : string) (arguments : Value)
| ReadResource (name : string) (uri : URL).

Inductive Response : Set :=
| ToolResponse (result : CallToolResult)
| ResourceResponse (result : Resource.ReadResourceResult)
| ErrorResponse (error : ErrorKind).

(** The running server: the registry built at initialization, the state
    outside the server, and the handler invocations so far, each with the
    tool name and the arguments of its request. *)
Record Runtime (W : Type) : Type := {
  server : McpServer.t W;
  world : W;
  invocations : list (string * Value)
}.
Arguments server {W} _.
Arguments world {W} _.
Arguments invocations {W} _.

Definition settle {A : Type} (wrap : A -> Response) (s : Settled A) : Response :=
  match s with
  | Fulfilled a => wrap a
  | Rejected e => ErrorResponse e
  end.

(** Modelled from the spec: the dispatch of a tool call, which the SDK server
    does and the repository does not contain: schema validation, then the
    handler invocation, then the structured response. A name with no entry
    is an UnknownOperation, arguments that fail the schema are a
    ValidationError. *)
Definition callTool {W : Type} (name : string) (arguments : Value) (rt : Runtime W)
  : Response * Runtime W :=
  match McpServer.lookup name (McpServer.registeredTools (server rt)) with
  | None => (ErrorResponse UnknownOperation, rt)
  | Some tool =>
      match z.parseShape (RegisteredTool.inputSchema tool) arguments with
      | None => (ErrorResponse ValidationError, rt)
      | Some data =>
          let '(settled, w) := RegisteredTool.callback tool data (world rt) in
          (settle ToolResponse settled,
           {| server := server rt;
              world := w;
              invocations := (invocations rt ++ [(name, arguments)])%list |})
      end
  end.

(** Modelled from the spec: the dispatch of a resource read to the callback
    registered under the name. *)
Definition readResource {W : Type} (name : string) (uri : URL) (rt : Runtime W)
  : Response * Runtime W :=
  match McpServer.lookup name (McpServer.registeredResources (server rt)) with
  | None => (ErrorResponse UnknownOperation, rt)
  | Some resource =>
      let '(settled, w) := Resource.read resource uri (world rt) in
      (settle ResourceResponse settled,
       {| server := server rt; world := w; invocations := invocations rt |})
  end.

Definition serve {W : Type} (request : Request) (rt : Runtime W) : Response * Runtime W :=
  match request with
  | CallTool name arguments => callTool name arguments rt
  | ReadResource name uri => readResource name uri rt
  end.

(** The runtime after a sequence of requests. *)
Fixpoint serveAll {W : Type} (requests : list Request) (rt : Runtime W) : Runtime W :=
  match requests with
  | [] => rt
  | request :: rest => serveAll rest (snd (serve request rt))
  end.

(** The runtime when the module has been loaded. *)
Definition start {W : Type} (server : McpServer.t W) (w : W) : Runtime W :=
  {| server := server; world := w; invocations := [] |}.

(** * The command-batch execution model

    The repository has no batching; sections 3 to 7 of the specification
    describe the model, and this part follows their words. *)

Module Batch.

Definition StepId : Set := string.

Definition mem (id : StepId) (l : list StepId) : bool := existsb (String.eqb id) l.

(** Modelled from the spec: an argument value is a literal or a SymbolicRef
    (producingStepId, outputField). *)
Inductive Argument : Set :=
| Literal (v : Value)
| SymbolicRef (producingStepId : StepId) (outputField : string).

(** Modelled from the spec: an Invocation. *)
Record Invocation : Set := {
  operationName : string;
  arguments : list (string * Argument);
  stepId : StepId
}.

Module Status.
Inductive t : Set := Success | Failed | Skipped.
Definition eqb (a b : t) : bool :=
  match a, b with
  | Success, Success | Failed, Failed | Skipped, Skipped => true
  | _, _ => false
  end.
End Status.

(** Modelled from the spec: the output of a step, a mapping or an error. *)
Inductive Output : Set :=
| Mapping (fields : list (string * Value))
| Error (kind : ErrorKind).

Module StepResult.
Record t : Set := { stepId : StepId; status : Status.t; output : Output }.
End StepResult.

Module Overall.
Inductive t : Set := Succeeded | Failed | PartialSuccess.
End Overall.

(** Modelled from the spec: a BatchReport, the ordered StepResults and the
    overall status. *)
Record BatchReport : Set := {
  results : list StepResult.t;
  overall : Overall.t
}.

Inductive FailurePolicy : Set := haltOnFirstFailure | continueIndependent.

(** ** Dependency Resolver *)

(** The steps an invocation refers to, in argument order. *)
Definition references (inv : Invocation) : list StepId :=
  flat_map (fun a => match snd a with
                     | SymbolicRef producer _ => [producer]
                     | Literal _ => []
                     end) (arguments inv).

(** A dependency graph: the steps in submission order and an edge (A, B)
    for every SymbolicRef to A in the arguments of B. *)
Record Graph : Set := {
  steps : list Invocation;
  edges : list (StepId * StepId)
}.

(** Modelled from the spec: the scan of the Dependency Resolver. Every
    SymbolicRef must name a step declared earlier in the batch, else the scan
    fails with DanglingReference; otherwise its edge is added. *)
Fixpoint scan (declared : list StepId) (batch : list Invocation)
  : Completion (list (StepId * StepId)) :=
  match batch with
  | [] => Normal []
  | inv :: rest =>
      if forallb (fun r => mem r declared) (references inv) then
        andThen (scan (declared ++ [stepId inv]) rest) (fun edges =>
        Normal (map (fun r => (r, stepId inv)) (references inv) ++ edges))
      else Throw DanglingReference
  end%list.

Definition resolve (batch : list Invocation) : Completion Graph :=
  andThen (scan [] batch) (fun edges => Normal {| steps := batch; edges := edges |}).

(** Modelled from the spec: the lookups of the Operation Registry, which fail
    with UnknownOperation; like the resolver errors they abort the batch
    before any step runs. *)
Definition lookupAll (registry : list string) (g : Graph) : Completion Graph :=
  if forallb (fun inv => mem (operationName inv) registry) (steps g)
  then Normal g else Throw UnknownOperation.

(** Batch validation: the resolver, then the registry. *)
Definition validate (registry : list string) (batch : list Invocation) : Completion Graph :=
  andThen (resolve batch) (lookupAll registry).

(** ** Batch Executor *)

(** What the external executor capability answers. *)
Inductive Outcome : Set :=
| Produced (fields : list (string * Value))
| Failure.

Module Phase.
(** Modelled from the spec: the state machine of a step. A Running step
    holds the answer of the capability it has invoked. *)
Inductive t : Set :=
| Pending
| Ready
| Running (answer : Outcome)
| Succeeded (fields : list (string * Value))
| Failed (kind : ErrorKind)
| Skipped.

Definition notStarted (p : t) : bool :=
  match p with Pending | Ready => true | _ => false end.

Definition isRunning (p : t) : bool :=
  match p with Running _ => true | _ => false end.

Definition isFinal (p : t) : bool :=
  match p with Succeeded _ | Failed _ | Skipped => true | _ => false end.
End Phase.

(** The state of an execution: the phase of every step, the steps that have
    invoked the external capability (the invocation counter), and the
    external state. *)
Record State (W : Type) : Type := {
  phase : StepId -> Phase.t;
  invoked : list StepId;
  external : W
}.
Arguments phase {W} _ _.
Arguments invoked {W} _.
Arguments external {W} _.

Definition initial {W : Type} (w : W) : State W :=
  {| phase := fun _ => Phase.Pending; invoked := []; external := w |}.

Definition setPhase {W : Type} (s : State W) (id : StepId) (p : Phase.t) : State W :=
  {| phase := fun k => if String.eqb k id then p else phase s k;
     invoked := invoked s;
     external := external s |}.

(** Every step that is not yet Running goes to Skipped. *)
Definition skipNotStarted {W : Type} (s : State W) : State W :=
  {| phase := fun k => if Phase.notStarted (phase s k) then Phase.Skipped else phase s k;
     invoked := invoked s;
     external := external s |}.

(** Modelled from the spec: under haltOnFirstFailure, upon a Failed step all
    not-yet-Running steps transition to Skipped; under continueIndependent
    nothing more happens at the failure. *)
Definition onFailure {W : Type} (policy : FailurePolicy) (s : State W) : State W :=
  match policy with
  | haltOnFirstFailure => skipNotStarted s
  | continueIndependent => s
  end.

(** Modelled from the spec: the substitution of the resolved SymbolicRefs by
    the values of the referenced outputs; [None] when a referenced field is
    absent. *)
Fixpoint substitute {W : Type} (s : State W) (args : list (string * Argument))
  : option (list (string * Value)) :=
  match args with
  | [] => Some []
  | (name, Literal v) :: rest =>
      option_map (cons (name, v)) (substitute s rest)
  | (name, SymbolicRef producer field) :: rest =>
      match phase s producer with
      | Phase.Succeeded fields =>
          if hasOwn field fields
          then option_map (cons (name, getOwn field fields)) (substitute s rest)
          else None
      | _ => None
      end
  end.

Section Executor.

Context {W : Type}.

(** The external executor capability, the failure policy, the validated
    graph and the concurrency limit. *)
Variable capability : string -> list (string * Value) -> W -> Outcome * W.
Variable policy : FailurePolicy.
Variable graph : Graph.
Variable limit : nat.

Definition running (s : State W) : nat :=
  List.length (filter (fun inv => Phase.isRunning (phase s (stepId inv))) (steps graph)).

Definition dependencySucceeded (s : State W) (d : StepId) : bool :=
  match phase s d with Phase.Succeeded _ => true | _ => false end.

Definition dependencyLost (s : State W) (d : StepId) : bool :=
  match phase s d with Phase.Failed _ | Phase.Skipped => true | _ => false end.

(** The state after a step has invoked the capability on its substituted
    arguments: the step is Running with the answer, the invocation is
    counted, the external state is the one the capability leaves. *)
Definition invoke (s : State W) (inv : Invocation) (args : list (string * Value))
  : State W :=
  {| phase :=
       phase (setPhase s (stepId inv)
                (Phase.Running (fst (capability (operationName inv) args (external s)))));
     invoked := (invoked s ++ [stepId inv])%list;
     external := snd (capability (operationName inv) args (external s)) |}.

(** Modelled from the spec: the transitions of the Batch Executor.
    Pending -> Ready when all dependencies Succeeded; a step with a Failed
    or Skipped dependency goes to Skipped and is never run; a Ready step
    starts Running by invoking the capability on its substituted arguments,
    within the concurrency limit, or Fails with MissingOutputField when the
    substitution fails; a Running step finishes Succeeded or Failed; the
    cancellation token, when triggered, sends every step not yet Running to
    Skipped and leaves the Running ones alone. The relation allows every
    schedule within the limit: it does not fix the order among Ready steps. *)
Inductive step : State W -> State W -> Prop :=
| step_ready s inv :
    In inv (steps graph) ->
    phase s (stepId inv) = Phase.Pending ->
    forallb (dependencySucceeded s) (references inv) = true ->
    step s (setPhase s (stepId inv) Phase.Ready)
| step_skip s inv :
    In inv (steps graph) ->
    phase s (stepId inv) = Phase.Pending ->
    existsb (dependencyLost s) (references inv) = true ->
    step s (setPhase s (stepId inv) Phase.Skipped)
| step_start s inv args :
    In inv (steps graph) ->
    phase s (stepId inv) = Phase.Ready ->
    running s < limit ->
    substitute s (arguments inv) = Some args ->
    step s (invoke s inv args)
| step_missing s inv :
    In inv (steps graph) ->
    phase s (stepId inv) = Phase.Ready ->
    substitute s (arguments inv) = None ->
    step s (onFailure policy (setPhase s (stepId inv) (Phase.Failed MissingOutputField)))
| step_succeed s inv fields :
    In inv (steps graph) ->
    phase s (stepId inv) = Phase.Running (Produced fields) ->
    step s (setPhase s (stepId inv) (Phase.Succeeded fields))
| step_fail s inv :
    In inv (steps graph) ->
    phase s (stepId inv) = Phase.Running Failure ->
    step s (onFailure policy
              (setPhase s (stepId inv) (Phase.Failed ExternalExecutionError)))
| step_cancel s :
    step s (skipNotStarted s).

(** Zero or more transitions. *)
Inductive run : State W -> State W -> Prop :=
| run_refl s : run s s
| run_step s s' s'' : step s s' -> run s' s'' -> run s s''.

(** Every step of the batch has its definite status. *)
Definition finished (s : State W) : Prop :=
  forall inv, In inv (steps graph) -> Phase.isFinal (phase s (stepId inv)) = true.

(** The StepResult written for a step in a final phase. The specification
    does not say what the output of a Skipped step holds; it is written here
    as the error Cancelled. *)
Definition resultOf (s : State W) (id : StepId) : list StepResult.t :=
  match phase s id with
  | Phase.Succeeded fields =>
      [ {| StepResult.stepId := id; StepResult.status := Status.Success;
           StepResult.output := Mapping fields |} ]
  | Phase.Failed kind =>
      [ {| StepResult.stepId := id; StepResult.status := Status.Failed;
           StepResult.output := Error kind |} ]
  | Phase.Skipped =>
      [ {| StepResult.stepId := id; StepResult.status := Status.Skipped;
           StepResult.output := Error Cancelled |} ]
  | _ => []
  end.

End Executor.

(** ** Result Aggregator *)

Definition find (id : StepId) (stepResults : list StepResult.t) : option StepResult.t :=
  List.find (fun r => String.eqb (StepResult.stepId r) id) stepResults.

(** The StepResults in the order of the submitted step ids. *)
Definition ordered (order : list StepId) (stepResults : list StepResult.t)
  : list StepResult.t :=
  flat_map (fun id => match find id stepResults with
                      | Some r => [r]
                      | None => []
                      end) order.

Definition hasStatus (st : Status.t) (l : list StepResult.t) : bool :=
  existsb (fun r => Status.eqb (StepResult.status r) st) l.

(** Modelled from the spec: the overall status is Failed if any step Failed,
    PartialSuccess if some are Skipped and none Failed, and Succeeded only if
    every step is Succeeded. *)
Definition overallStatus (l : list StepResult.t) : Overall.t :=
  if hasStatus Status.Failed l then Overall.Failed
  else if hasStatus Status.Skipped l then Overall.PartialSuccess
  else Overall.Succeeded.

(** Modelled from the spec: [aggregate(stepResults)], for the batch whose
    step ids are [order] in submission order. *)
Definition aggregate (order : list StepId) (stepResults : list StepResult.t) : BatchReport :=
  {| results := ordered order stepResults;
     overall := overallStatus (ordered order stepResults) |}.

(** ** Submission *)

Inductive Submission : Set :=
| Aborted (kind : ErrorKind)
| Reported (report : BatchReport).

Section Submit.

Context {W : Type}.
Variable registry : list string.
Variable capability : string -> list (string * Value) -> W -> Outcome * W.
Variable policy : FailurePolicy.
Variable limit : nat.

(** Modelled from the spec: a submitted batch is validated; a structural
    error aborts it before any step runs; otherwise the executor walks the
    graph until every step has its status and the aggregator builds the
    report. The relation gives the answer, the steps that invoked the
    capability and the external state afterwards. *)
Inductive submit (batch : list Invocation) (w : W)
  : Submission -> list StepId -> W -> Prop :=
| submit_aborted kind :
    validate registry batch = Throw kind ->
    submit batch w (Aborted kind) [] w
| submit_reported g s :
    validate registry batch = Normal g ->
    run capability policy g limit (initial w) s ->
    finished g s ->
    submit batch w
      (Reported (aggregate (map stepId (steps g))
                   (flat_map (resultOf s) (map stepId (steps g)))))
      (invoked s) (external s).

End Submit.

End Batch.

(** * What the statements name *)

(** The entries of the three tool modules among the sources. *)
Definition toolModules {W : Type} : list (string * Tool W) :=
  (basicOperations.entries ++ nodeOrganization.entries
     ++ advancedVfxOperations.entries)%list.

(** The text of getNode after the quoted name, written with apostrophes
    where it has double quotes. *)
Definition getNode_after_name : string :=
  Guide.doubleQuotes ",
  'type': 'Blur',
  'knobs': {
    'size': 2.5,
    'channels': 'rgba',
    'filter': 'gaussian'
  },
  'position': {
    'x': 100,
    'y': 200
  }
}".

Definition getNode_text (nodeName : string) : string :=
  Guide.doubleQuotes "{
  'name': " ++ JSON.quote nodeName ++ getNode_after_name.

Definition getNodePosition_text : string :=
  Guide.doubleQuotes "{
  'x': 100,
  'y': 200
}".

(** A handler that settles with a result fixed by its arguments, in every
    state, and leaves the state as it was. *)
Definition pureHandler {W : Type} (tool : Tool W) : Prop :=
  forall args : z.inferShape (schema tool),
    exists result : CallToolResult,
      forall w : W, handler tool args w = (Fulfilled result, w).

(** A handler whose result has one content element, of type text, with a
    text that is not empty. *)
Definition textHandler {W : Type} (tool : Tool W) : Prop :=
  forall args : z.inferShape (schema tool),
    exists s : string,
      s <> "" /\
      forall w : W,
        handler tool args w
        = (Fulfilled {| content := [ {| type := "text"; text := s |} ] |}, w).

(** The handler invocations of a runtime are on arguments that satisfy the
    schema registered under their tool name. *)
Definition validInvocations {W : Type} (rt : Runtime W) : Prop :=
  Forall (fun invocation =>
            exists tool,
              McpServer.lookup (fst invocation) (McpServer.registeredTools (server rt))
              = Some tool
              /\ z.parseShape (RegisteredTool.inputSchema tool) (snd invocation) <> None)
         (invocations rt).

(** The registry entry that the call of [registerTools] makes of a tool:
    its schema and handler, and no description. *)
Definition registered {W : Type} (tool : Tool W) : RegisteredTool.t W :=
  {| RegisteredTool.inputSchema := schema tool;
     RegisteredTool.callback := handler tool;
     RegisteredTool.description := None |}.

Definition registeredEntries {W : Type} (tools : list (string * Tool W))
  : list (string * RegisteredTool.t W) :=
  map (fun entry => (fst entry, registered (snd entry))) tools.

(** The server with the entries of the three tool modules and no others. *)
Definition loaded {W : Type} : McpServer.t W :=
  {| McpServer.registeredTools := registeredEntries toolModules;
     McpServer.registeredResources := [] |}.

(** The five operations that the usage guide lists for projectManagement,
    whose module is not among the sources: the names and descriptions are the
    guide's, the schemas and handlers stand in for the absent ones. *)
Definition projectManagement_listed {W : Type} : list (string * Tool W) :=
  map (fun entry =>
         (fst entry,
          Build_Tool W [] (fun _ => resolve (textResult (snd entry))) (snd entry)))
    [("loadScript", "Load a Nuke script");
     ("saveScript", "Save the current Nuke script");
     ("configureProjectSettings", "Configure project settings");
     ("listNodes", "List all nodes in the script");
     ("filterNodes", "Filter nodes by type or name")].

(** The names of a list are distinct. *)
Fixpoint distinct (names : list string) : bool :=
  match names with
  | [] => true
  | name :: rest => negb (existsb (String.eqb name) rest) && distinct rest
  end.

(** The second scenario of the specification: step b refers to step c, which
    is declared after it. *)
Definition forward_reference : list Batch.Invocation :=
  [ {| Batch.operationName := "createNode";
       Batch.arguments := [("nodeType", Batch.Literal (VString "Blur"))];
       Batch.stepId := "a" |};
    {| Batch.operationName := "connectNodes";
       Batch.arguments := [("fromNode", Batch.SymbolicRef "c" "name");
                           ("toNode", Batch.Literal (VString "Write1"))];
       Batch.stepId := "b" |};
    {| Batch.operationName := "createNode";
       Batch.arguments := [("nodeType", Batch.Literal (VString "Grade"))];
       Batch.stepId := "c" |} ].

(** A step that has invoked the capability has started. *)
Definition invokedStarted {W : Type} (s : Batch.State W) : Prop :=
  forall id, In id (Batch.invoked s) -> Batch.Phase.notStarted (Batch.phase s id) = false.

(** The example of the specification: five independent steps, the third of
    which fails, run one at a time; the external state counts the
    invocations of the capability. *)
Definition five_steps : Batch.Graph :=
  let operation (name id : string) :=
    {| Batch.operationName := name; Batch.arguments := []; Batch.stepId := id |} in
  {| Batch.steps := [operation "createNode" "1"; operation "createNode" "2";
                     operation "loadScript" "3"; operation "createNode" "4";
                     operation "createNode" "5"];
     Batch.edges := [] |}.

Definition failing_loadScript (name : string) (args : list (string * Value)) (count : nat)
  : Batch.Outcome * nat :=
  if String.eqb name "loadScript" then (Batch.Failure, S count)
  else (Batch.Produced [("name", VString "Node")], S count).

(** One step run to its answer. *)
Definition ran (s : Batch.State nat) (name id : string) : Batch.State nat :=
  Batch.invoke failing_loadScript (Batch.setPhase s id Batch.Phase.Ready)
    {| Batch.operationName := name; Batch.arguments := []; Batch.stepId := id |} [].

Definition third_running : Batch.State nat :=
  let done (s : Batch.State nat) (id : string) :=
    Batch.setPhase s id (Batch.Phase.Succeeded [("name", VString "Node")]) in
  ran (done (ran (done (ran (Batch.initial 0) "createNode" "1") "1") "createNode" "2") "2")
    "loadScript" "3".

Definition third_failed : Batch.State nat :=
  Batch.onFailure Batch.haltOnFirstFailure
    (Batch.setPhase third_running "3" (Batch.Phase.Failed ExternalExecutionError)).

(** Three results, in the order in which the steps completed. *)
Definition completed : list Batch.StepResult.t :=
  [ {| Batch.StepResult.stepId := "b"; Batch.StepResult.status := Batch.Status.Skipped;
       Batch.StepResult.output := Batch.Error Cancelled |};
    {| Batch.StepResult.stepId := "c"; Batch.StepResult.status := Batch.Status.Success;
       Batch.StepResult.output := Batch.Mapping [] |};
    {| Batch.StepResult.stepId := "a"; Batch.StepResult.status := Batch.Status.Success;
       Batch.StepResult.output := Batch.Mapping [("name", VString "Blur1")] |} ].

(** ** What the further statements name *)

(** The text has no slash. *)
Definition noSlash (s : string) : Prop := ~ In "/"%char (list_ascii_of_string s).

(** The text that the setupGuide resource answers for an unknown guide. *)
Definition availableGuides : string := "Available guides: setup, usage, examples".

(** A string, a boolean or a number that is not NaN. *)
Definition primitive (v : Value) : bool :=
  match v with
  | VString _ | VBoolean _ => true
  | VNumber n => negb (Number.isNaN n)
  | _ => false
  end.

(** The properties of an object other than the one named __proto__. *)
Definition ownData (properties : list (string * Value)) : list (string * Value) :=
  filter (fun p => negb (String.eqb (fst p) "__proto__")) properties.

(** A primitive, an array of primitives or an object whose properties, the
    one named __proto__ included, hold primitives. *)
Definition flatValue (v : Value) : bool :=
  match v with
  | VArray elements => forallb primitive elements
  | VObject properties => forallb (fun p => primitive (snd p)) properties
  | _ => primitive v
  end.

(** The value without a property named __proto__. *)
Definition withoutProto (v : Value) : Value :=
  match v with
  | VObject properties => VObject (ownData properties)
  | _ => v
  end.

Definition isSome {A : Type} (o : option A) : bool :=
  match o with Some _ => true | None => false end.

(** The schema of a string, a number or a boolean, as knobValueSchema and
    the inference parameters have it. *)
Definition primitiveSchema : z.ZodType := z.union [z.string; z.number; z.boolean].

(** * Properties *)

(** ** Numbers print as JavaScript prints them *)

Example toString_literals :
  map Number.toString
    [Number.of_decimal 25 (-1); Number.of_decimal 65 (-1); Number.of_decimal 1 (-1);
     Number.of_decimal 5 (-2); Number.of_decimal 10 (-1); Number.of_Z 100;
     Number.of_Z (-7); Number.of_decimal 1 21; Number.of_decimal 15 (-8);
     Number.of_decimal 30000000000000004 (-17); Number.of_decimal 5 (-324)]
  = ["2.5"; "6.5"; "0.1"; "0.05"; "1"; "100"; "-7"; "1e+21"; "1.5e-7";
     "0.30000000000000004"; "5e-324"].
Proof. vm_compute. reflexivity. Qed.

(** ** JSON: a quoted string reads back *)

Lemma append_assoc (a b c : string) : (a ++ b) ++ c = a ++ (b ++ c).
Proof. induction a as [|x a IH]; simpl; [reflexivity | now rewrite IH]. Qed.

Lemma length_append (a b : string) :
  String.length (a ++ b) = String.length a + String.length b.
Proof. induction a as [|x a IH]; simpl; [reflexivity | now rewrite IH]. Qed.

Lemma parse_chars_escape (c : ascii) (tail : string) :
  JSON.parse_chars (JSON.escape c ++ tail)
  = JSON.prepend (String c "") (JSON.parse_chars tail).
Proof.
  destruct c as [b0 b1 b2 b3 b4 b5 b6 b7];
    destruct b0, b1, b2, b3, b4, b5, b6, b7; reflexivity.
Qed.

Lemma parse_chars_escape_all (s rest : string) :
  JSON.parse_chars
    (JSON.escape_all s ++ String (Ascii false true false false false true false false) rest)
  = Some (s, rest).
Proof.
  induction s as [|c s IH].
  - reflexivity.
  - change (JSON.escape_all (String c s)) with (JSON.escape c ++ JSON.escape_all s).
    rewrite append_assoc, parse_chars_escape, IH. reflexivity.
Qed.

Lemma parse_value_S (f : nat) (s : string) :
  JSON.parse_value (S f) s
  = JSON.value_body (JSON.parse_members f) (JSON.parse_elements f) s.
Proof. reflexivity. Qed.

Lemma parse_members_S (f : nat) (s : string) :
  JSON.parse_members (S f) s
  = JSON.members_body (JSON.parse_value f) (JSON.parse_members f) s.
Proof. reflexivity. Qed.

(** A string that JSON.stringify quotes is the string JSON.parse reads. *)
Lemma parse_quote (s : string) : JSON.parse (JSON.quote s) = Some (VString s).
Proof.
  unfold JSON.parse, JSON.quote.
  change (String.length (JSON.dquote ++ JSON.escape_all s ++ JSON.dquote))
    with (S (String.length (JSON.escape_all s ++ JSON.dquote))).
  rewrite parse_value_S. unfold JSON.value_body.
  cbn -[JSON.parse_chars JSON.escape_all].
  change (JSON.escape_all s ++ JSON.dquote)
    with (JSON.escape_all s
            ++ String (Ascii false true false false false true false false) "").
  rewrite parse_chars_escape_all. reflexivity.
Qed.

(** ** getNode and getNodePosition *)

Lemma serialize_object (gap indent : string) (properties : list (string * Value)) :
  JSON.serialize gap indent (VObject properties)
  = Some (JSON.wrap gap indent (indent ++ gap) "{" "}"
      (flat_map (fun p => match JSON.serialize gap (indent ++ gap) (snd p) with
                          | Some s => [JSON.quote (fst p) ++ ":"
                                       ++ (if String.eqb gap "" then "" else " ") ++ s]
                          | None => []
                          end) properties)).
Proof. reflexivity. Qed.

Lemma serialize_mock_type :
  JSON.serialize "  " "  " (VString "Blur") = Some (Guide.doubleQuotes "'Blur'").
Proof. vm_compute. reflexivity. Qed.

Lemma serialize_mock_knobs :
  JSON.serialize "  " "  "
    (VObject [("size", VNumber (Number.of_decimal 25 (-1)));
              ("channels", VString "rgba");
              ("filter", VString "gaussian")])
  = Some (Guide.doubleQuotes "{
    'size': 2.5,
    'channels': 'rgba',
    'filter': 'gaussian'
  }").
Proof. vm_compute. reflexivity. Qed.

Lemma serialize_mock_position :
  JSON.serialize "  " "  "
    (VObject [("x", VNumber (Number.of_Z 100)); ("y", VNumber (Number.of_Z 200))])
  = Some (Guide.doubleQuotes "{
    'x': 100,
    'y': 200
  }").
Proof. vm_compute. reflexivity. Qed.

Lemma stringify2_mockNodeInfo (nodeName : string) :
  JSON.stringify2 (basicOperations.getNode.mockNodeInfo nodeName)
  = Some (getNode_text nodeName).
Proof.
  unfold JSON.stringify2, basicOperations.getNode.mockNodeInfo, getNode_text.
  rewrite serialize_object. cbn [flat_map fst snd].
  change ("" ++ "  ") with "  ".
  rewrite serialize_mock_type, serialize_mock_knobs, serialize_mock_position.
  change (JSON.serialize "  " "  " (VString nodeName)) with (Some (JSON.quote nodeName)).
  generalize (JSON.quote nodeName) as Q. intro Q.
  cbn. rewrite !append_assoc. reflexivity.
Qed.

Lemma stringify2_mockPosition :
  JSON.stringify2 basicOperations.getNodePosition.mockPosition = Some getNodePosition_text.
Proof. vm_compute. reflexivity. Qed.

Lemma parse_getNode_text (nodeName : string) :
  JSON.parse (getNode_text nodeName) = Some (basicOperations.getNode.mockNodeInfo nodeName).
Proof.
  unfold JSON.parse, getNode_text.
  rewrite !length_append.
  generalize (String.length (JSON.quote nodeName)) as n. intro n.
  assert (E : String.length (Guide.doubleQuotes "{
  'name': ") + (n + String.length getNode_after_name) = S (S (S (161 + n)))).
  { change (12 + (n + 152) = S (S (S (161 + n)))). lia. }
  rewrite E. clear E.
  remember (161 + n) as f eqn:Ef.
  unfold JSON.quote. rewrite !append_assoc.
  rewrite parse_value_S. unfold JSON.value_body.
  cbn -[JSON.parse_members JSON.parse_value JSON.parse_elements JSON.parse_chars
        getNode_after_name].
  rewrite parse_members_S. unfold JSON.members_body.
  cbn -[JSON.parse_members JSON.parse_value JSON.parse_elements JSON.escape_all
        getNode_after_name].
  rewrite parse_value_S. unfold JSON.value_body.
  cbn -[JSON.parse_members JSON.parse_value JSON.parse_elements JSON.parse_chars
        getNode_after_name].
  rewrite parse_chars_escape_all.
  subst f. vm_compute. reflexivity.
Qed.

(** C8. For every nodeName, getNode answers the JSON text of an object whose
    name is that nodeName and whose other fields are the constants type Blur,
    knobs (size 2.5, channels rgba, filter gaussian) and position (x 100,
    y 200); getNodePosition answers the JSON text of the constant position
    (x 100, y 200). Both answers are the same in every state outside the
    arguments, and leave that state as it was. *)
Theorem getNode_getNodePosition_mock (W : Type)
  (args : z.inferShape basicOperations.getNode.schema)
  (args' : z.inferShape basicOperations.getNodePosition.schema) (w : W) :
  basicOperations.getNode.handler args w
    = (Fulfilled (textResult (getNode_text (fst args))), w)
  /\ JSON.parse (getNode_text (fst args))
     = Some (VObject
               [("name", VString (fst args));
                ("type", VString "Blur");
                ("knobs", VObject [("size", VNumber (Number.of_decimal 25 (-1)));
                                   ("channels", VString "rgba");
                                   ("filter", VString "gaussian")]);
                ("position", VObject [("x", VNumber (Number.of_Z 100));
                                      ("y", VNumber (Number.of_Z 200))])])
  /\ basicOperations.getNodePosition.handler args' w
     = (Fulfilled (textResult getNodePosition_text), w)
  /\ JSON.parse getNodePosition_text
     = Some (VObject [("x", VNumber (Number.of_Z 100)); ("y", VNumber (Number.of_Z 200))]).
Proof.
  destruct args as [nodeName u], args' as [nodeName' u'].
  split; [|split; [|split]].
  - unfold basicOperations.getNode.handler. rewrite stringify2_mockNodeInfo. reflexivity.
  - exact (parse_getNode_text nodeName).
  - unfold basicOperations.getNodePosition.handler.
    rewrite stringify2_mockPosition. reflexivity.
  - vm_compute. reflexivity.
Qed.

(** ** The handlers of the tool modules *)

#[local] Arguments Number.toString : simpl never.
#[local] Arguments Number.of_decimal : simpl never.
#[local] Arguments Number.of_Z : simpl never.
#[local] Arguments Number.of_nat : simpl never.
#[local] Arguments JSON.stringify : simpl never.
#[local] Arguments JSON.stringify2 : simpl never.

Ltac destruct_args :=
  cbn in *;
  repeat match goal with
         | x : (_ * _)%type |- _ => destruct x
         end.

Ltac text_handler :=
  intro args; destruct_args;
  eexists; split; [| intro w; reflexivity]; cbn;
  first [ discriminate
        | rewrite stringify2_mockNodeInfo; discriminate
        | rewrite stringify2_mockPosition; discriminate ].

Lemma toolModules_text (W : Type) :
  Forall (fun entry => textHandler (snd entry)) (@toolModules W).
Proof.
  unfold toolModules, basicOperations.entries, nodeOrganization.entries,
    advancedVfxOperations.entries.
  repeat (apply Forall_cons; [text_handler |]).
  apply Forall_nil.
Qed.

Lemma textHandler_pure {W : Type} (tool : Tool W) : textHandler tool -> pureHandler tool.
Proof.
  intros H args. destruct (H args) as [s [_ Hs]].
  exists {| content := [ {| type := "text"; text := s |} ] |}. exact Hs.
Qed.

(** C1. Every handler of the three tool modules, on every argument record
    its schema produces, settles with a result that depends on the arguments
    only: it is the same in every state outside the arguments, and that state
    is left as it was. *)
Theorem handlers_pure (W : Type) (name : string) (tool : Tool W) (raw : Value)
  (args : z.inferShape (schema tool)) :
  In (name, tool) toolModules ->
  z.parseShape (schema tool) raw = Some args ->
  exists result : CallToolResult,
    forall w : W, handler tool args w = (Fulfilled result, w).
Proof.
  intros Hin _.
  pose proof (toolModules_text W) as H.
  rewrite Forall_forall in H.
  exact (textHandler_pure tool (H _ Hin) args).
Qed.

Lemma handlers_pure_witness :
  exists result : CallToolResult,
    forall w : nat,
      basicOperations.createNode.handler ("Blur", (Some "Blur1", (None, (None, tt)))) w
      = (Fulfilled result, w).
Proof.
  apply (handlers_pure nat "createNode"
           (Build_Tool nat basicOperations.createNode.schema
              basicOperations.createNode.handler basicOperations.createNode.description)
           (VObject [("nodeType", VString "Blur"); ("name", VString "Blur1")])
           ("Blur", (Some "Blur1", (None, (None, tt))))).
  - left. reflexivity.
  - reflexivity.
Defined.



Example autoArrangeNodes_text :
  nodeOrganization.autoArrangeNodes.handler (Some ["A"; "B"], (None, (None, tt))) 0
  = (Fulfilled (textResult
       "Auto-arranged nodes: A, B in horizontal direction with spacing 100"), 0).
Proof. vm_compute. reflexivity. Qed.

Example createNode_text :
  option_map (fun args => basicOperations.createNode.handler args 0)
    (z.parseShape basicOperations.createNode.schema
       (VObject [("nodeType", VString "Blur");
                 ("position", VObject [("x", VNumber (Number.of_Z 3));
                                       ("y", VNumber (Number.of_decimal (-45) (-1)))]);
                 ("inputs", VArray [VString "Read1"; VString "Read2"]);
                 ("selected", VBoolean true)]))
  = Some (Fulfilled (textResult
            "Created Blur node at position (3, -4.5) with inputs: Read1, Read2"), 0).
Proof. vm_compute. reflexivity. Qed.

Example setKnobValue_text :
  option_map (fun args => basicOperations.setKnobValue.handler args 0)
    (z.parseShape basicOperations.setKnobValue.schema
       (VObject [("nodeName", VString "Grade1");
                 ("knobName", VString "gamma");
                 ("value", VArray [VNumber (Number.of_decimal 8 (-1)); VBoolean true])]))
  = Some (Fulfilled (textResult
            (Guide.doubleQuotes
               "Set knob 'gamma' on node 'Grade1' to value: [0.8,true]")), 0).
Proof. vm_compute. reflexivity. Qed.

Example createNode_rejects :
  map (z.parseShape basicOperations.createNode.schema)
    [VObject [("name", VString "Blur1")];
     VObject [("nodeType", VString "Blur"); ("name", VNull)];
     VObject [("nodeType", VString "Blur"); ("position", VObject [("x", VNumber (Number.of_Z 1))])];
     VArray []]
  = [None; None; None; None].
Proof. vm_compute. reflexivity. Qed.

(** ** setupKeying *)

(** C9. When screenColor is not custom (the default green included), the
    answer of setupKeying is the same for any two customColor arguments, the
    rest of the arguments being equal; the text then names the screen color.
    When screenColor is custom the text has customColor, or its default
    #00FF00, in that place. *)
Theorem setupKeying_customColor (W : Type) (sourceName : string)
  (screenColor customColor customColor' keyerType : option string)
  (despill edgeRefinement : option bool) (outputName : option string) (w : W) :
  let invoke (color : option string) :=
    advancedVfxOperations.setupKeying.handler
      (sourceName, (screenColor, (color, (keyerType, (despill,
        (edgeRefinement, (outputName, tt))))))) w in
  let text (colorInfo : string) :=
    "Set up keying pipeline for " ++ quoted sourceName ++ " using "
    ++ default "Keylight" keyerType ++ " with " ++ colorInfo ++ " screen"
    ++ (if default true despill then ", despill correction" else "")
    ++ (if default true edgeRefinement then ", edge refinement" else "")
    ++ advancedVfxOperations.outputNode_suffix outputName in
  (screenColor <> Some "custom" ->
     invoke customColor = invoke customColor'
     /\ invoke customColor = (Fulfilled (textResult (text (default "green" screenColor))), w))
  /\ (screenColor = Some "custom" ->
     invoke customColor
     = (Fulfilled (textResult (text (default "#00FF00" customColor))), w)).
Proof.
  cbv zeta. unfold advancedVfxOperations.setupKeying.handler.
  split.
  - intro Hne.
    assert (E : String.eqb (default "green" screenColor) "custom" = false).
    { destruct screenColor as [c|]; [| reflexivity].
      simpl. apply String.eqb_neq. intro Hc. apply Hne. now rewrite Hc. }
    rewrite E. split; reflexivity.
  - intros ->. reflexivity.
Qed.

Lemma setupKeying_customColor_witness :
  advancedVfxOperations.setupKeying.handler
    ("Plate", (Some "blue", (Some "#123456", (None, (None, (Some false, (None, tt))))))) 0
  = advancedVfxOperations.setupKeying.handler
    ("Plate", (Some "blue", (None, (None, (None, (Some false, (None, tt))))))) 0.
Proof.
  apply (setupKeying_customColor nat "Plate" (Some "blue") (Some "#123456") None None None
           (Some false) None 0).
  discriminate.
Defined.

Example setupKeying_custom :
  advancedVfxOperations.setupKeying.handler
    ("Plate", (Some "custom", (Some "#123456", (None, (None, (Some false, (None, tt))))))) 0
  = (Fulfilled (textResult
       (Guide.doubleQuotes
          "Set up keying pipeline for 'Plate' using Keylight with #123456 screen, despill correction")),
     0).
Proof. vm_compute. reflexivity. Qed.

(** ** The resources *)

(** The setupGuide resource answers the list of guides for every path
    segment that is none of setup, usage and examples. *)
Lemma setupGuide_unknown (W : Type) (uri : URL) (w : W) :
  strictEquals (pop (split "/" (pathname uri))) "setup" = false ->
  strictEquals (pop (split "/" (pathname uri))) "usage" = false ->
  strictEquals (pop (split "/" (pathname uri))) "examples" = false ->
  setupGuide_read uri w
  = (Fulfilled (textContents uri (PString "Available guides: setup, usage, examples")), w).
Proof.
  intros H1 H2 H3. unfold setupGuide_read. rewrite H1, H2, H3. reflexivity.
Qed.

(** The pythonBridge resource answers the text Resource not found for every
    path segment that is neither an own key of pythonBridgeCode nor a
    property name of Object.prototype. *)
Lemma pythonBridge_unknown (W : Type) (pythonBridgeCode : list (string * string))
  (uri : URL) (w : W) :
  let path := interpolate (pop (split "/" (pathname uri))) in
  OrdinaryObject.own pythonBridgeCode path = None ->
  existsb (String.eqb path) OrdinaryObject.prototype = false ->
  pythonBridge_read pythonBridgeCode uri w
  = (Fulfilled (textContents uri (PString ("Resource not found: " ++ path))), w).
Proof.
  intros path H1 H2. unfold pythonBridge_read, OrdinaryObject.get.
  fold path. rewrite H1, H2. reflexivity.
Qed.

(** C10, at the input where the code departs from it: for a request whose
    path segment is constructor, which is no key of pythonBridgeCode, the
    pythonBridge resource does not answer Resource not found: constructor;
    its text is the built-in that the object inherits under that name. *)
Theorem pythonBridge_inherited_key (W : Type) (pythonBridgeCode : list (string * string))
  (w : W) :
  let uri := {| href := "nuke://pythonBridge/constructor"; pathname := "/constructor" |} in
  ~ In "constructor" (OrdinaryObject.keys pythonBridgeCode) ->
  pythonBridge_read pythonBridgeCode uri w
    = (Fulfilled (textContents uri (PBuiltIn "constructor")), w)
  /\ pythonBridge_read pythonBridgeCode uri w
     <> (Fulfilled (textContents uri (PString "Resource not found: constructor")), w).
Proof.
  intros uri Hkey.
  assert (E : OrdinaryObject.own pythonBridgeCode "constructor" = None).
  { induction pythonBridgeCode as [|[k v] rest IH]; [reflexivity |].
    simpl in *. destruct (String.eqb_spec k "constructor") as [->|Hne].
    - exfalso. apply Hkey. now left.
    - apply IH. intro H. apply Hkey. now right. }
  assert (R : pythonBridge_read pythonBridgeCode uri w
              = (Fulfilled (textContents uri (PBuiltIn "constructor")), w)).
  { unfold pythonBridge_read, OrdinaryObject.get. cbn. rewrite E. reflexivity. }
  split; [exact R |]. rewrite R. discriminate.
Qed.

Lemma pythonBridge_inherited_key_witness :
  pythonBridge_read [("nuke_bridge.py", "import nuke")]
    {| href := "nuke://pythonBridge/constructor"; pathname := "/constructor" |} 0
  = (Fulfilled
       (textContents
          {| href := "nuke://pythonBridge/constructor"; pathname := "/constructor" |}
          (PBuiltIn "constructor")), 0).
Proof.
  apply (pythonBridge_inherited_key nat [("nuke_bridge.py", "import nuke")] 0).
  simpl. intros [H | []]. discriminate H.
Defined.

(** ** Registration *)

Section Registration.

Context {W : Type}.

Lemma lookup_None_iff {A : Type} (name : string) (l : list (string * A)) :
  McpServer.lookup name l = None <-> ~ In name (map fst l).
Proof.
  induction l as [|[k a] l IH]; simpl.
  - tauto.
  - destruct (String.eqb_spec k name) as [->|Hne].
    + split; [discriminate | intros H; exfalso; apply H; now left].
    + rewrite IH. tauto.
Qed.

Lemma registeredEntries_names (tools : list (string * Tool W)) :
  map fst (registeredEntries tools) = map fst tools.
Proof.
  unfold registeredEntries. rewrite map_map. reflexivity.
Qed.

Lemma registeredEntries_In (name : string) (tool : Tool W)
  (tools : list (string * Tool W)) :
  In (name, tool) tools -> In (name, registered tool) (registeredEntries tools).
Proof.
  intro Hin. unfold registeredEntries.
  change (name, registered tool)
    with ((fun entry : string * Tool W => (fst entry, registered (snd entry)))
            (name, tool)).
  now apply in_map.
Qed.

(** Registering entries with distinct names, none of them present yet, adds
    them after the ones present, in their order. *)
Lemma registerTools_adds (tools : list (string * Tool W)) (server : McpServer.t W) :
  NoDup (map fst (McpServer.registeredTools server) ++ map fst tools) ->
  registerTools tools server
  = Normal {| McpServer.registeredTools :=
                McpServer.registeredTools server ++ registeredEntries tools;
              McpServer.registeredResources := McpServer.registeredResources server |}.
Proof.
  revert server. induction tools as [|[name tool] tools IH]; intros server Hnd.
  - simpl. rewrite app_nil_r. destruct server. reflexivity.
  - unfold registerTools in *. cbn [forEach]. unfold McpServer.tool at 1.
    assert (Hfresh : McpServer.lookup name (McpServer.registeredTools server) = None).
    { apply lookup_None_iff. intro Hin. simpl in Hnd.
      apply NoDup_remove_2 in Hnd. apply Hnd. apply in_or_app. now left. }
    rewrite Hfresh. cbn [andThen].
    rewrite IH.
    + cbn [McpServer.registeredTools McpServer.registeredResources registeredEntries map
             fst snd].
      rewrite <- app_assoc. reflexivity.
    + cbn [McpServer.registeredTools map fst]. rewrite map_app, <- app_assoc. exact Hnd.
Qed.

Lemma forEach_app {A S : Type} (l l' : list A) (f : A -> S -> Completion S) (s : S) :
  forEach (l ++ l') f s = andThen (forEach l f s) (forEach l' f).
Proof.
  revert s. induction l as [|a l IH]; intro s; simpl; [reflexivity |].
  destruct (f a s); simpl; [apply IH | reflexivity].
Qed.

Lemma registerAllTools_eq (projectManagement : list (string * Tool W))
  (server : McpServer.t W) :
  registerAllTools projectManagement server
  = registerTools (toolModules ++ projectManagement) server.
Proof.
  unfold registerAllTools, registerTools, toolModules.
  rewrite <- !app_assoc, forEach_app.
  destruct (forEach basicOperations.entries _ server) as [server1|]; [| reflexivity].
  cbn [andThen]. rewrite forEach_app.
  destruct (forEach nodeOrganization.entries _ server1) as [server2|]; [| reflexivity].
  cbn [andThen]. rewrite forEach_app. reflexivity.
Qed.

Lemma initialize_eq (projectManagement : list (string * Tool W))
  (pythonBridgeCode : list (string * string)) :
  NoDup (map fst (toolModules ++ projectManagement)) ->
  initialize projectManagement pythonBridgeCode
  = Normal
      {| McpServer.registeredTools := registeredEntries (toolModules ++ projectManagement);
         McpServer.registeredResources :=
           [("pythonBridge",
              {| Resource.list := pythonBridge_list;
                 Resource.read := pythonBridge_read pythonBridgeCode |});
            ("setupGuide",
              {| Resource.list := setupGuide_list; Resource.read := setupGuide_read |})] |}.
Proof.
  intro Hnd. unfold initialize.
  rewrite registerAllTools_eq, registerTools_adds by exact Hnd.
  reflexivity.
Qed.


Lemma lookup_unique {A : Type} (name : string) (a : A) (l : list (string * A)) :
  NoDup (map fst l) -> In (name, a) l ->
  McpServer.lookup name l = Some a
  /\ List.length (filter (fun entry => String.eqb (fst entry) name) l) = 1.
Proof.
  induction l as [|[k b] l IH]; intros Hnd Hin; [destruct Hin |].
  simpl in Hnd. inversion Hnd as [|? ? Hk Hnd']; subst.
  simpl. destruct Hin as [Heq | Hin].
  - inversion Heq; subst. rewrite String.eqb_refl. split; [reflexivity |].
    simpl. f_equal.
    assert (Hnone : forall l' : list (string * A),
               ~ In name (map fst l') ->
               filter (fun entry => String.eqb (fst entry) name) l' = []).
    { induction l' as [|[k' b'] l' IH']; intro Hn; [reflexivity |].
      simpl in *. destruct (String.eqb_spec k' name) as [->|Hne].
      - exfalso. apply Hn. now left.
      - apply IH'. tauto. }
    now rewrite Hnone.
  - destruct (String.eqb_spec k name) as [->|Hne].
    + exfalso. apply Hk. change name with (fst (name, a)). now apply in_map.
    + now apply IH.
Qed.

Lemma lookup_registered (name : string) (tool : Tool W)
  (tools : list (string * Tool W)) :
  NoDup (map fst tools) -> In (name, tool) tools ->
  McpServer.lookup name (registeredEntries tools) = Some (registered tool)
  /\ List.length (filter (fun entry => String.eqb (fst entry) name)
                    (registeredEntries tools)) = 1.
Proof.
  intros Hnd Hin. apply lookup_unique.
  - now rewrite registeredEntries_names.
  - now apply registeredEntries_In.
Qed.

(** A request leaves the registry as it is. *)
Lemma serve_server (request : Request) (rt : Runtime W) :
  server (snd (serve request rt)) = server rt.
Proof.
  destruct request as [name arguments | name uri]; simpl.
  - unfold callTool.
    destruct (McpServer.lookup name (McpServer.registeredTools (server rt))) as [tool|];
      [| reflexivity].
    destruct (z.parseShape (RegisteredTool.inputSchema tool) arguments) as [data|];
      [| reflexivity].
    destruct (RegisteredTool.callback tool data (world rt)). reflexivity.
  - unfold readResource.
    destruct (McpServer.lookup name (McpServer.registeredResources (server rt)))
      as [resource|]; [| reflexivity].
    destruct (Resource.read resource uri (world rt)). reflexivity.
Qed.

Lemma serveAll_server (requests : list Request) (rt : Runtime W) :
  server (serveAll requests rt) = server rt.
Proof.
  revert rt. induction requests as [|request requests IH]; intro rt; simpl.
  - reflexivity.
  - rewrite IH. apply serve_server.
Qed.

Lemma serve_validInvocations (request : Request) (rt : Runtime W) :
  validInvocations rt -> validInvocations (snd (serve request rt)).
Proof.
  unfold validInvocations. intro H.
  destruct request as [name arguments | name uri]; simpl.
  - unfold callTool.
    destruct (McpServer.lookup name (McpServer.registeredTools (server rt)))
      as [tool|] eqn:Hl; [| exact H].
    destruct (z.parseShape (RegisteredTool.inputSchema tool) arguments) as [data|] eqn:Hp;
      [| exact H].
    destruct (RegisteredTool.callback tool data (world rt)). simpl.
    apply Forall_app. split; [exact H |].
    constructor; [| constructor]. exists tool. simpl. split; [exact Hl |].
    rewrite Hp. discriminate.
  - unfold readResource.
    destruct (McpServer.lookup name (McpServer.registeredResources (server rt)))
      as [resource|]; [| exact H].
    destruct (Resource.read resource uri (world rt)). exact H.
Qed.

Lemma serveAll_validInvocations (requests : list Request) (rt : Runtime W) :
  validInvocations rt -> validInvocations (serveAll requests rt).
Proof.
  revert rt. induction requests as [|request requests IH]; intros rt H; simpl.
  - exact H.
  - apply IH. now apply serve_validInvocations.
Qed.

End Registration.

(** C3. A tool call whose arguments fail the schema registered under the
    tool name is answered with a ValidationError and nothing else happens:
    no handler invocation is recorded and the state outside is as before.
    After any sequence of requests, every recorded handler invocation is on
    arguments that satisfy the schema registered under its tool name. *)
Theorem validation_before_handler (W : Type) (registry : McpServer.t W) :
  (forall (name : string) (tool : RegisteredTool.t W) (arguments : Value) (rt : Runtime W),
      server rt = registry ->
      McpServer.lookup name (McpServer.registeredTools registry) = Some tool ->
      z.parseShape (RegisteredTool.inputSchema tool) arguments = None ->
      callTool name arguments rt = (ErrorResponse ValidationError, rt))
  /\ (forall (requests : list Request) (w : W),
        Forall (fun invocation =>
                  exists tool,
                    McpServer.lookup (fst invocation) (McpServer.registeredTools registry)
                    = Some tool
                    /\ z.parseShape (RegisteredTool.inputSchema tool) (snd invocation)
                       <> None)
               (invocations (serveAll requests (start registry w)))).
Proof.
  split.
  - intros name tool arguments rt Hrt Hl Hp. unfold callTool.
    rewrite Hrt, Hl, Hp. reflexivity.
  - intros requests w.
    pose proof (serveAll_validInvocations requests (start registry w)) as H.
    unfold validInvocations in H. rewrite serveAll_server in H.
    apply H. constructor.
Qed.

Lemma validation_before_handler_witness :
  callTool "createNode" (VObject [("name", VString "Blur1")]) (start loaded 0)
  = (ErrorResponse ValidationError, start loaded 0).
Proof.
  apply (validation_before_handler nat loaded) with
    (tool := registered
               (Build_Tool nat basicOperations.createNode.schema
                  basicOperations.createNode.handler
                  basicOperations.createNode.description));
    reflexivity.
Defined.

Example connectNodes_served :
  let served :=
    callTool "connectNodes"
      (VObject [("fromNode", VString "Read1"); ("toNode", VString "Grade1")])
      (start loaded 0) in
  fst served
  = ToolResponse
      (textResult (Guide.doubleQuotes "Connected node 'Read1' to input 0 of node 'Grade1'"))
  /\ invocations (snd served)
     = [("connectNodes",
         VObject [("fromNode", VString "Read1"); ("toNode", VString "Grade1")])].
Proof. split; vm_compute; reflexivity. Qed.

(** C4. When the names of the four tool objects are distinct, the module
    loads and the registry then holds one entry for each operation of the
    tool modules and of projectManagement, in their order: every operation
    of the tool modules is found under its key with its schema and its
    handler, and is registered exactly once. Its description is not
    registered: registerTools passes it in an object after the handler,
    which the method tool does not read, so the description of the entry is
    undefined and not the description of the operation. The two resources
    added afterwards and every request served later leave the registered
    tools as they are. *)
Theorem registered_without_description (W : Type)
  (projectManagement : list (string * Tool W)) (pythonBridgeCode : list (string * string)) :
  NoDup (map fst (toolModules ++ projectManagement)) ->
  exists registry : McpServer.t W,
    initialize projectManagement pythonBridgeCode = Normal registry
    /\ registerAllTools projectManagement McpServer.new
       = Normal {| McpServer.registeredTools := McpServer.registeredTools registry;
                   McpServer.registeredResources := [] |}
    /\ McpServer.registeredTools registry
       = registeredEntries (toolModules ++ projectManagement)
    /\ (forall (name : string) (tool : Tool W),
          In (name, tool) toolModules ->
          exists entry : RegisteredTool.t W,
            McpServer.lookup name (McpServer.registeredTools registry) = Some entry
            /\ entry = {| RegisteredTool.inputSchema := schema tool;
                          RegisteredTool.callback := handler tool;
                          RegisteredTool.description := None |}
            /\ RegisteredTool.description entry <> Some (description tool)
            /\ List.length (filter (fun entry => String.eqb (fst entry) name)
                               (McpServer.registeredTools registry)) = 1)
    /\ (forall (requests : list Request) (w : W),
          McpServer.registeredTools (server (serveAll requests (start registry w)))
          = McpServer.registeredTools registry).
Proof.
  intro Hnd. eexists. split; [apply initialize_eq; exact Hnd |].
  cbn [McpServer.registeredTools]. split; [| split; [reflexivity | split]].
  - rewrite registerAllTools_eq, registerTools_adds by exact Hnd. reflexivity.
  - intros name tool Hin. exists (registered tool).
    destruct (lookup_registered name tool (toolModules ++ projectManagement) Hnd)
      as [Hfound Honce]; [apply in_or_app; now left |].
    split; [exact Hfound | split; [reflexivity | split; [discriminate | exact Honce]]].
  - intros requests w. rewrite serveAll_server. reflexivity.
Qed.

Lemma distinct_NoDup (names : list string) : distinct names = true -> NoDup names.
Proof.
  induction names as [|name rest IH]; simpl; intro H; [constructor |].
  apply andb_true_iff in H. destruct H as [Hfresh Hrest].
  constructor; [| now apply IH].
  intro Hin. apply negb_true_iff in Hfresh.
  assert (E : existsb (String.eqb name) rest = true).
  { apply existsb_exists. exists name. split; [exact Hin | apply String.eqb_refl]. }
  congruence.
Qed.

Lemma registered_without_description_witness :
  exists registry : McpServer.t nat,
    initialize projectManagement_listed [("nuke_bridge.py", "import nuke")] = Normal registry
    /\ (exists entry : RegisteredTool.t nat,
          McpServer.lookup "getNode" (McpServer.registeredTools registry) = Some entry
          /\ RegisteredTool.inputSchema entry = basicOperations.getNode.schema
          /\ RegisteredTool.description entry = None
          /\ RegisteredTool.description entry
             <> Some basicOperations.getNode.description)
    /\ List.length (McpServer.registeredTools registry) = 29.
Proof.
  destruct (registered_without_description nat projectManagement_listed
              [("nuke_bridge.py", "import nuke")])
    as [registry [Hinit [_ [Htools [Hfound _]]]]].
  - apply distinct_NoDup. vm_compute. reflexivity.
  - exists registry. split; [exact Hinit | split].
    + destruct (Hfound "getNode"
                  (Build_Tool nat basicOperations.getNode.schema
                     basicOperations.getNode.handler basicOperations.getNode.description))
        as [entry [Hentry [Heq [Hlost _]]]]; [simpl; tauto |].
      exists entry. split; [exact Hentry |].
      split; [now rewrite Heq | split; [now rewrite Heq | exact Hlost]].
    + rewrite Htools. reflexivity.
Defined.

(** ** The batch model: validation *)

Section BatchValidation.

Import Batch.

Lemma mem_In (id : StepId) (l : list StepId) : mem id l = true <-> In id l.
Proof.
  unfold mem. rewrite existsb_exists. split.
  - intros [x [Hin Heq]]. apply String.eqb_eq in Heq. now subst.
  - intro Hin. exists id. split; [exact Hin | apply String.eqb_refl].
Qed.

Lemma references_In (inv : Invocation) (key : string) (r : StepId) (field : string) :
  In (key, SymbolicRef r field) (arguments inv) -> In r (references inv).
Proof.
  intro Hin. unfold references. apply in_flat_map.
  exists (key, SymbolicRef r field). split; [exact Hin | now left].
Qed.

(** The scan fails on a batch with a reference to a step that is not
    declared before its referrer. *)
Lemma scan_dangling (before : list Invocation) (inv : Invocation)
  (after : list Invocation) (r : StepId) :
  forall declared : list StepId,
    In r (references inv) ->
    ~ In r (declared ++ map stepId before) ->
    scan declared (before ++ inv :: after) = Throw DanglingReference.
Proof.
  induction before as [|b before IH]; intros declared Hr Hnot; simpl.
  - assert (E : forallb (fun r => mem r declared) (references inv) = false).
    { apply not_true_is_false. intro Hall. rewrite forallb_forall in Hall.
      apply Hnot. rewrite app_nil_r. apply mem_In. now apply Hall. }
    rewrite E. reflexivity.
  - destruct (forallb (fun r => mem r declared) (references b)); [| reflexivity].
    rewrite (IH (declared ++ [stepId b])%list Hr).
    + reflexivity.
    + rewrite <- app_assoc. exact Hnot.
Qed.

Lemma validate_dangling (registry : list string) (before : list Invocation)
  (inv : Invocation) (after : list Invocation) (r : StepId) :
  In r (references inv) ->
  ~ In r (map stepId before) ->
  validate registry (before ++ inv :: after) = Throw DanglingReference.
Proof.
  intros Hr Hnot. unfold validate, resolve.
  rewrite (scan_dangling before inv after r []); [reflexivity | exact Hr | exact Hnot].
Qed.

(** With step ids unique within the batch, the id of a step is not declared
    before it. *)
Lemma self_not_declared (before : list Invocation) (inv : Invocation)
  (after : list Invocation) :
  NoDup (map stepId (before ++ inv :: after)) -> ~ In (stepId inv) (map stepId before).
Proof.
  intros Hnd Hin. rewrite map_app in Hnd. simpl in Hnd.
  apply NoDup_remove_2 in Hnd. apply Hnd. apply in_or_app. now left.
Qed.

End BatchValidation.

(** C5. A batch in which some invocation has a SymbolicRef to a step id that
    is not declared earlier in submission order, or (step ids being unique)
    to its own step id, is aborted with DanglingReference: that is an answer
    of the submission, it is the only one, no step has invoked the external
    capability, and the external state is as before. *)
Theorem dangling_reference_aborts (W : Type) (registry : list string)
  (capability : string -> list (string * Value) -> W -> Batch.Outcome * W)
  (policy : Batch.FailurePolicy) (limit : nat)
  (before : list Batch.Invocation) (inv : Batch.Invocation) (after : list Batch.Invocation)
  (key : string) (r : Batch.StepId) (field : string) (w : W) :
  In (key, Batch.SymbolicRef r field) (Batch.arguments inv) ->
  (~ In r (map Batch.stepId before)
   \/ (r = Batch.stepId inv /\ NoDup (map Batch.stepId (before ++ inv :: after)))) ->
  Batch.submit registry capability policy limit (before ++ inv :: after) w
    (Batch.Aborted DanglingReference) [] w
  /\ (forall (answer : Batch.Submission) (invoked : list Batch.StepId) (w' : W),
        Batch.submit registry capability policy limit (before ++ inv :: after) w
          answer invoked w' ->
        answer = Batch.Aborted DanglingReference /\ invoked = [] /\ w' = w).
Proof.
  intros Harg Hdangling.
  assert (Hnot : ~ In r (map Batch.stepId before)).
  { destruct Hdangling as [H | [-> Hnd]]; [exact H |].
    now apply (self_not_declared before inv after). }
  assert (Hv : Batch.validate registry (before ++ inv :: after) = Throw DanglingReference).
  { apply (validate_dangling registry before inv after r); [| exact Hnot].
    now apply (references_In inv key r field). }
  split.
  - apply Batch.submit_aborted. exact Hv.
  - intros answer invoked w' Hsubmit.
    inversion Hsubmit as [kind Hk | g s Hg Hrun Hfin]; subst.
    + rewrite Hv in Hk. inversion Hk; subst. repeat split.
    + rewrite Hv in Hg. discriminate Hg.
Qed.

Lemma dangling_reference_aborts_witness :
  Batch.submit ["createNode"; "connectNodes"]
    (fun _ _ (w : nat) => (Batch.Failure, S w)) Batch.haltOnFirstFailure 1
    forward_reference 0 (Batch.Aborted DanglingReference) [] 0.
Proof.
  apply (dangling_reference_aborts nat ["createNode"; "connectNodes"]
           (fun _ _ (w : nat) => (Batch.Failure, S w)) Batch.haltOnFirstFailure 1
           [ {| Batch.operationName := "createNode";
                Batch.arguments := [("nodeType", Batch.Literal (VString "Blur"))];
                Batch.stepId := "a" |} ]
           {| Batch.operationName := "connectNodes";
              Batch.arguments := [("fromNode", Batch.SymbolicRef "c" "name");
                                  ("toNode", Batch.Literal (VString "Write1"))];
              Batch.stepId := "b" |}
           [ {| Batch.operationName := "createNode";
                Batch.arguments := [("nodeType", Batch.Literal (VString "Grade"))];
                Batch.stepId := "c" |} ]
           "fromNode" "c" "name" 0).
  - simpl. left. reflexivity.
  - left. simpl. intros [H | []]. discriminate H.
Defined.

(** ** The batch model: haltOnFirstFailure *)

Section Halt.

Import Batch.

Context {W : Type}.
Variable capability : string -> list (string * Value) -> W -> Outcome * W.
Variable graph : Graph.
Variable limit : nat.

Let step := Batch.step capability haltOnFirstFailure graph limit.
Let run := Batch.run capability haltOnFirstFailure graph limit.

Lemma phase_setPhase (s : State W) (id k : StepId) (p : Phase.t) :
  phase (setPhase s id p) k = if String.eqb k id then p else phase s k.
Proof. reflexivity. Qed.

Lemma phase_halt (s : State W) (k : StepId) :
  phase (onFailure haltOnFirstFailure s) k
  = if Phase.notStarted (phase s k) then Phase.Skipped else phase s k.
Proof. reflexivity. Qed.

Lemma phase_skipNotStarted (s : State W) (k : StepId) :
  phase (skipNotStarted s) k
  = if Phase.notStarted (phase s k) then Phase.Skipped else phase s k.
Proof. reflexivity. Qed.

Lemma invokedStarted_initial (w : W) : invokedStarted (initial w).
Proof. intros id []. Qed.

Lemma invokedStarted_step (s s' : State W) :
  step s s' -> invokedStarted s -> invokedStarted s'.
Proof.
  intros Hstep Hinv id Hin.
  destruct Hstep as [s inv Hg Hp Hd | s inv Hg Hp Hd | s inv args Hg Hp Hl Hs
                    | s inv Hg Hp Hs | s inv fields Hg Hp | s inv Hg Hp | s].
  - rewrite phase_setPhase. destruct (String.eqb_spec id (stepId inv)) as [->|Hne].
    + apply Hinv in Hin. rewrite Hp in Hin. discriminate Hin.
    + now apply Hinv.
  - rewrite phase_setPhase. destruct (String.eqb id (stepId inv)); [reflexivity |].
    now apply Hinv.
  - unfold invoke in *. cbn [phase invoked] in *. rewrite phase_setPhase.
    destruct (String.eqb_spec id (stepId inv)) as [->|Hne].
    + reflexivity.
    + apply in_app_or in Hin. destruct Hin as [Hin | [Heq | []]].
      * now apply Hinv.
      * congruence.
  - rewrite phase_halt.
    destruct (Phase.notStarted (phase (setPhase s (stepId inv) _) id)) eqn:E;
      [reflexivity | exact E].
  - rewrite phase_setPhase. destruct (String.eqb id (stepId inv)); [reflexivity |].
    now apply Hinv.
  - rewrite phase_halt.
    destruct (Phase.notStarted (phase (setPhase s (stepId inv) _) id)) eqn:E;
      [reflexivity | exact E].
  - rewrite phase_skipNotStarted.
    destruct (Phase.notStarted (phase s id)) eqn:E; [reflexivity | exact E].
Qed.

Lemma invokedStarted_run (s s' : State W) :
  run s s' -> invokedStarted s -> invokedStarted s'.
Proof.
  induction 1 as [s | s s' s'' Hstep _ IH]; intro Hinv; [exact Hinv |].
  apply IH. now apply (invokedStarted_step s s').
Qed.

(** At the transition in which a step fails, every other step that has not
    started becomes Skipped. *)
Lemma failure_skips (s s' : State W) (i j : StepId) (kind : ErrorKind) :
  step s s' ->
  (forall kind', phase s i <> Phase.Failed kind') ->
  phase s' i = Phase.Failed kind ->
  j <> i ->
  Phase.notStarted (phase s j) = true ->
  phase s' j = Phase.Skipped /\ invoked s' = invoked s.
Proof.
  intros Hstep Hbefore Hfailed Hji Hj.
  assert (Hset : forall id p,
             (forall kind', p <> Phase.Failed kind') ->
             phase (setPhase s id p) i <> Phase.Failed kind).
  { intros id p Hp. rewrite phase_setPhase.
    destruct (String.eqb i id); [apply Hp | apply Hbefore]. }
  assert (Hhalt : forall id kind0,
             phase (onFailure haltOnFirstFailure (setPhase s id (Phase.Failed kind0))) i
             = Phase.Failed kind ->
             phase (onFailure haltOnFirstFailure (setPhase s id (Phase.Failed kind0))) j
             = Phase.Skipped).
  { intros id kind0 Hi. rewrite phase_halt, phase_setPhase in *.
    destruct (String.eqb_spec i id) as [->|Hne].
    - destruct (String.eqb_spec j id) as [->|_]; [congruence |].
      now rewrite Hj.
    - exfalso. destruct (Phase.notStarted (phase s i)); [discriminate Hi |].
      now apply (Hbefore kind). }
  destruct Hstep as [s inv Hg Hp Hd | s inv Hg Hp Hd | s inv args Hg Hp Hl Hs
                    | s inv Hg Hp Hs | s inv fields Hg Hp | s inv Hg Hp | s].
  - exfalso. apply (Hset (stepId inv) Phase.Ready); [discriminate | exact Hfailed].
  - exfalso. apply (Hset (stepId inv) Phase.Skipped); [discriminate | exact Hfailed].
  - exfalso. unfold invoke in Hfailed. cbn [phase] in Hfailed.
    apply (Hset (stepId inv)
             (Phase.Running (fst (capability (operationName inv) args (external s)))));
      [discriminate | exact Hfailed].
  - split; [now apply (Hhalt (stepId inv) MissingOutputField) | reflexivity].
  - exfalso. apply (Hset (stepId inv) (Phase.Succeeded fields));
      [discriminate | exact Hfailed].
  - split; [now apply (Hhalt (stepId inv) ExternalExecutionError) | reflexivity].
  - exfalso. rewrite phase_skipNotStarted in Hfailed.
    destruct (Phase.notStarted (phase s i)); [discriminate Hfailed |].
    now apply (Hbefore kind).
Qed.

(** A Skipped step stays Skipped and does not invoke the capability. *)
Lemma skipped_step (s s' : State W) (j : StepId) :
  step s s' ->
  phase s j = Phase.Skipped ->
  phase s' j = Phase.Skipped /\ (In j (invoked s') -> In j (invoked s)).
Proof.
  intros Hstep Hj.
  assert (Hset : forall inv p,
             phase s (stepId inv) <> Phase.Skipped ->
             phase (setPhase s (stepId inv) p) j = Phase.Skipped).
  { intros inv p Hne. rewrite phase_setPhase.
    destruct (String.eqb_spec j (stepId inv)) as [->|_]; [contradiction | exact Hj]. }
  assert (Hhalt : forall inv p,
             phase s (stepId inv) <> Phase.Skipped ->
             phase (onFailure haltOnFirstFailure (setPhase s (stepId inv) p)) j
             = Phase.Skipped).
  { intros inv p Hne. rewrite phase_halt, (Hset inv p Hne). reflexivity. }
  destruct Hstep as [s inv Hg Hp Hd | s inv Hg Hp Hd | s inv args Hg Hp Hl Hs
                    | s inv Hg Hp Hs | s inv fields Hg Hp | s inv Hg Hp | s];
    try (split; [first [apply Hset | apply Hhalt]; rewrite Hp; discriminate
                | intro H; exact H]).
  - unfold invoke. cbn [phase invoked]. split.
    + apply Hset. rewrite Hp. discriminate.
    + intro Hin. apply in_app_or in Hin.
      destruct Hin as [Hin | [Heq | []]]; [exact Hin |].
      subst j. rewrite Hp in Hj. discriminate Hj.
  - split; [| intro H; exact H].
    rewrite phase_skipNotStarted, Hj. reflexivity.
Qed.

Lemma skipped_run (s s' : State W) (j : StepId) :
  run s s' ->
  phase s j = Phase.Skipped ->
  phase s' j = Phase.Skipped /\ (In j (invoked s') -> In j (invoked s)).
Proof.
  induction 1 as [s | s s' s'' Hstep _ IH]; intro Hj.
  - split; [exact Hj | tauto].
  - destruct (skipped_step s s' j Hstep Hj) as [Hj' Hinv].
    destruct (IH Hj') as [Hj'' Hinv']. split; [exact Hj'' | tauto].
Qed.

End Halt.

(** C6. Under haltOnFirstFailure, in any execution from the initial state:
    at the transition in which a step fails, every other step that has not
    started Running is Skipped, it is still Skipped in every later state, and
    it never invokes the external capability. *)
Theorem halt_skips_not_started (W : Type)
  (capability : string -> list (string * Value) -> W -> Batch.Outcome * W)
  (graph : Batch.Graph) (limit : nat) (w : W)
  (s s' s'' : Batch.State W) (i j : Batch.StepId) (kind : ErrorKind) :
  Batch.run capability Batch.haltOnFirstFailure graph limit (Batch.initial w) s ->
  Batch.step capability Batch.haltOnFirstFailure graph limit s s' ->
  (forall kind', Batch.phase s i <> Batch.Phase.Failed kind') ->
  Batch.phase s' i = Batch.Phase.Failed kind ->
  j <> i ->
  Batch.Phase.notStarted (Batch.phase s j) = true ->
  Batch.run capability Batch.haltOnFirstFailure graph limit s' s'' ->
  Batch.phase s' j = Batch.Phase.Skipped
  /\ Batch.phase s'' j = Batch.Phase.Skipped
  /\ ~ In j (Batch.invoked s'').
Proof.
  intros Hrun Hstep Hbefore Hfailed Hji Hj Hlater.
  destruct (failure_skips capability graph limit s s' i j kind
              Hstep Hbefore Hfailed Hji Hj) as [Hskipped Hinvoked].
  destruct (skipped_run capability graph limit s' s'' j Hlater Hskipped)
    as [Hstill Hnever].
  split; [exact Hskipped | split; [exact Hstill |]].
  intro Hin. apply Hnever in Hin. rewrite Hinvoked in Hin.
  pose proof (invokedStarted_run capability graph limit (Batch.initial w) s Hrun
                (invokedStarted_initial w) j Hin) as Hstarted.
  congruence.
Qed.

Ltac run_ready name id :=
  eapply Batch.run_step;
  [ apply (Batch.step_ready _ _ _ _ _
             {| Batch.operationName := name; Batch.arguments := []; Batch.stepId := id |});
    [simpl; tauto | reflexivity | reflexivity] |].

Ltac run_start name id :=
  eapply Batch.run_step;
  [ apply (Batch.step_start _ _ _ _ _
             {| Batch.operationName := name; Batch.arguments := []; Batch.stepId := id |}
             []);
    [simpl; tauto | reflexivity | vm_compute; lia | reflexivity] |].

Ltac run_succeed name id :=
  eapply Batch.run_step;
  [ apply (Batch.step_succeed _ _ _ _ _
             {| Batch.operationName := name; Batch.arguments := []; Batch.stepId := id |}
             [("name", VString "Node")]);
    [simpl; tauto | reflexivity] |].

Lemma third_running_reached :
  Batch.run failing_loadScript Batch.haltOnFirstFailure five_steps 1
    (Batch.initial 0) third_running.
Proof.
  unfold third_running, ran.
  run_ready "createNode" "1". run_start "createNode" "1". run_succeed "createNode" "1".
  run_ready "createNode" "2". run_start "createNode" "2". run_succeed "createNode" "2".
  run_ready "loadScript" "3". run_start "loadScript" "3".
  apply Batch.run_refl.
Qed.

Lemma third_fails :
  Batch.step failing_loadScript Batch.haltOnFirstFailure five_steps 1
    third_running third_failed.
Proof.
  apply (Batch.step_fail _ _ _ _ _
           {| Batch.operationName := "loadScript"; Batch.arguments := [];
              Batch.stepId := "3" |}).
  - simpl. tauto.
  - reflexivity.
Qed.

Lemma halt_skips_not_started_witness :
  Batch.phase third_failed "4" = Batch.Phase.Skipped
  /\ Batch.phase third_failed "4" = Batch.Phase.Skipped
  /\ ~ In "4" (Batch.invoked third_failed).
Proof.
  apply (halt_skips_not_started nat failing_loadScript five_steps 1 0
           third_running third_failed third_failed "3" "4" ExternalExecutionError).
  - exact third_running_reached.
  - exact third_fails.
  - intro kind'. vm_compute. discriminate.
  - reflexivity.
  - discriminate.
  - reflexivity.
  - apply Batch.run_refl.
Defined.

Example third_of_five_fails :
  map (Batch.phase third_failed) ["1"; "2"; "3"; "4"; "5"]
  = [Batch.Phase.Succeeded [("name", VString "Node")];
     Batch.Phase.Succeeded [("name", VString "Node")];
     Batch.Phase.Failed ExternalExecutionError;
     Batch.Phase.Skipped; Batch.Phase.Skipped]
  /\ Batch.invoked third_failed = ["1"; "2"; "3"]
  /\ Batch.external third_failed = 3.
Proof. vm_compute. repeat split. Qed.

(** ** The batch model: aggregation *)

Section Aggregation.

Import Batch.










End Aggregation.



Example aggregate_completed :
  map Batch.StepResult.stepId (Batch.results (Batch.aggregate ["a"; "b"; "c"] completed))
  = ["a"; "b"; "c"]
  /\ Batch.overall (Batch.aggregate ["a"; "b"; "c"] completed)
     = Batch.Overall.PartialSuccess.
Proof. vm_compute. split; reflexivity. Qed.

(** * Further properties of the sources *)

(** ** The path segment of a resource request *)

Lemma split_nonempty (sep : ascii) (s : string) : split sep s <> [].
Proof.
  destruct s as [|c rest]; simpl; [discriminate |].
  destruct (Ascii.eqb c sep); [discriminate |].
  destruct (split sep rest); discriminate.
Qed.

Lemma split_noSlash (s : string) : noSlash s -> split "/" s = [s].
Proof.
  unfold noSlash. induction s as [|c rest IH]; simpl; intro H; [reflexivity |].
  destruct (Ascii.eqb_spec c "/") as [->|Hne].
  - exfalso. apply H. now left.
  - rewrite IH; [reflexivity |]. intro Hin. apply H. now right.
Qed.

Lemma pop_cons {A : Type} (a : A) (l : list A) : l <> [] -> pop (a :: l) = pop l.
Proof. destruct l; [congruence | reflexivity]. Qed.

(** The last piece of a text split at its slashes is what follows its last
    slash. *)
Lemma pop_split (directory segment : string) :
  noSlash segment ->
  pop (split "/" (directory ++ "/" ++ segment)) = Some segment.
Proof.
  intro Hseg. induction directory as [|c rest IH]; simpl.
  - rewrite (split_noSlash segment Hseg). reflexivity.
  - destruct (Ascii.eqb c "/").
    + rewrite pop_cons; [exact IH | apply split_nonempty].
    + simpl in IH.
      destruct (split "/" (rest ++ String "/" segment)) as [|first others] eqn:E.
      * discriminate IH.
      * destruct others as [|second others].
        -- exfalso. clear IH.
           assert (Hlen : 2 <= List.length (split "/" (rest ++ String "/" segment))).
           { clear E. induction rest as [|d rest IHr]; simpl.
             - pose proof (split_nonempty "/" segment) as Hne.
               destruct (split "/" segment); [congruence | simpl; lia].
             - destruct (Ascii.eqb d "/").
               + simpl. lia.
               + destruct (split "/" (rest ++ String "/" segment)); simpl in *; lia. }
           rewrite E in Hlen. simpl in Hlen. lia.
        -- exact IH.
Qed.

Lemma pop_split_noSlash (segment : string) :
  noSlash segment -> pop (split "/" segment) = Some segment.
Proof. intro H. now rewrite (split_noSlash segment H). Qed.

(** X1. Both resources answer by the last path segment only: a request
    whose pathname is any directory, a slash and a segment without slash is
    answered as the request whose pathname is that segment alone, with the
    same href. *)
Theorem resources_read_last_segment (W : Type) (pythonBridgeCode : list (string * string))
  (link directory segment : string) (w : W) :
  noSlash segment ->
  pythonBridge_read pythonBridgeCode
    {| href := link; pathname := directory ++ "/" ++ segment |} w
  = pythonBridge_read pythonBridgeCode {| href := link; pathname := segment |} w
  /\ setupGuide_read {| href := link; pathname := directory ++ "/" ++ segment |} w
     = setupGuide_read {| href := link; pathname := segment |} w.
Proof.
  intro Hseg. unfold pythonBridge_read, setupGuide_read. cbn [pathname href].
  rewrite (pop_split directory segment Hseg), (pop_split_noSlash segment Hseg).
  split; reflexivity.
Qed.

Lemma resources_read_last_segment_witness :
  setupGuide_read (W := nat)
    {| href := "nuke://guides/v1/usage"; pathname := "/guides/v1" ++ "/" ++ "usage" |} 0
  = setupGuide_read {| href := "nuke://guides/v1/usage"; pathname := "usage" |} 0.
Proof.
  apply (resources_read_last_segment nat [] "nuke://guides/v1/usage" "/guides/v1" "usage" 0).
  unfold noSlash. simpl. intuition discriminate.
Defined.

(** ** The setupGuide resource *)

Lemma guides_differ :
  Guide.setup <> availableGuides /\ Guide.usage <> availableGuides
  /\ Guide.examples <> availableGuides.
Proof. split; [| split]; discriminate. Qed.

(** X2. The setupGuide resource serves a guide exactly for the names it
    lists: setup, usage and examples are answered with their guide, and the
    answer is the list of available guides if and only if the last path
    segment is none of the listed names. *)
Theorem setupGuide_serves_listed (W : Type) (uri : URL) (w : W) :
  let segment := pop (split "/" (pathname uri)) in
  (segment = Some "setup" ->
     setupGuide_read uri w = (Fulfilled (textContents uri (PString Guide.setup)), w))
  /\ (segment = Some "usage" ->
     setupGuide_read uri w = (Fulfilled (textContents uri (PString Guide.usage)), w))
  /\ (segment = Some "examples" ->
     setupGuide_read uri w = (Fulfilled (textContents uri (PString Guide.examples)), w))
  /\ (setupGuide_read uri w = (Fulfilled (textContents uri (PString availableGuides)), w)
      <-> ~ exists name, In name setupGuide_list /\ segment = Some name).
Proof.
  intro segment. unfold setupGuide_read. fold segment.
  destruct guides_differ as [D1 [D2 D3]].
  assert (Hlisted : forall name guide,
             In name setupGuide_list -> guide <> availableGuides ->
             (Fulfilled (textContents uri (PString guide)), w)
             = (Fulfilled (textContents uri (PString availableGuides)), w)
             <-> ~ (exists name', In name' setupGuide_list /\ Some name = Some name')).
  { intros name guide Hin Hne. split.
    - intro H. exfalso. apply Hne. unfold textContents in H. congruence.
    - intro H. exfalso. apply H. exists name. split; [exact Hin | reflexivity]. }
  destruct segment as [s|]; cbn [strictEquals].
  - destruct (String.eqb_spec s "setup") as [->|N1];
      [| destruct (String.eqb_spec s "usage") as [->|N2];
         [| destruct (String.eqb_spec s "examples") as [->|N3]]].
    + split; [reflexivity | split; [discriminate | split; [discriminate |]]].
      apply Hlisted; [simpl; tauto | exact D1].
    + split; [discriminate | split; [reflexivity | split; [discriminate |]]].
      apply Hlisted; [simpl; tauto | exact D2].
    + split; [discriminate | split; [discriminate | split; [reflexivity |]]].
      apply Hlisted; [simpl; tauto | exact D3].
    + split; [congruence | split; [congruence | split; [congruence |]]].
      split; [| reflexivity].
      intros _ [name [Hin Heq]]. inversion Heq; subst.
      simpl in Hin. intuition congruence.
  - split; [discriminate | split; [discriminate | split; [discriminate |]]].
    split; [| reflexivity].
    intros _ [name [_ Heq]]. discriminate Heq.
Qed.

(** ** The pythonBridge resource *)

(** X3. The pythonBridge resource serves the source text of an own key of
    pythonBridgeCode when that text is not empty; a key whose text is empty
    is answered as if it were missing, with Resource not found. *)
Theorem pythonBridge_serves_own (W : Type) (pythonBridgeCode : list (string * string))
  (uri : URL) (segment code : string) (w : W) :
  pop (split "/" (pathname uri)) = Some segment ->
  OrdinaryObject.own pythonBridgeCode segment = Some code ->
  pythonBridge_read pythonBridgeCode uri w
  = (Fulfilled
       (textContents uri
          (if String.eqb code "" then PString ("Resource not found: " ++ segment)
           else PString code)), w).
Proof.
  intros Hseg Hown. unfold pythonBridge_read, OrdinaryObject.get.
  rewrite Hseg. cbn [interpolate]. rewrite Hown. cbn [ToBoolean]. unfold truthy.
  destruct (String.eqb code ""); reflexivity.
Qed.

Lemma pythonBridge_serves_own_witness :
  pythonBridge_read [("nuke_bridge.py", "import nuke"); ("mcp_client.py", "")]
    {| href := "nuke://bridge/mcp_client.py"; pathname := "/mcp_client.py" |} 0
  = (Fulfilled
       (textContents {| href := "nuke://bridge/mcp_client.py"; pathname := "/mcp_client.py" |}
          (PString "Resource not found: mcp_client.py")), 0).
Proof.
  apply (pythonBridge_serves_own nat
           [("nuke_bridge.py", "import nuke"); ("mcp_client.py", "")]
           {| href := "nuke://bridge/mcp_client.py"; pathname := "/mcp_client.py" |}
           "mcp_client.py" "" 0); reflexivity.
Defined.

(** ** Loading the module *)

Lemma NoDup_app_fresh {A : Type} (l : list (string * A)) (name : string) (a : A) :
  NoDup (map fst l) -> McpServer.lookup name l = None ->
  NoDup (map fst (l ++ [(name, a)])).
Proof.
  intros Hnd Hfresh. rewrite map_app. simpl.
  apply NoDup_app_remove_l with (l := []). simpl.
  apply lookup_None_iff in Hfresh.
  induction (map fst l) as [|x xs IH]; simpl.
  - constructor; [intros [] | constructor].
  - inversion Hnd as [|? ? Hx Hxs]; subst.
    assert (Hne : x <> name) by (intro E; apply Hfresh; now left).
    assert (Hfresh' : ~ In name xs) by (intro E; apply Hfresh; now right).
    specialize (IH Hxs Hfresh').
    constructor; [| exact IH].
    intro Hin. apply in_app_or in Hin. destruct Hin as [Hin | [Heq | []]];
      [now apply Hx | congruence].
Qed.

(** Registering entries of which one has a name that is present already, or
    present twice among them, throws. *)
Lemma registerTools_clash {W : Type} (tools : list (string * Tool W))
  (server : McpServer.t W) :
  NoDup (map fst (McpServer.registeredTools server)) ->
  ~ NoDup (map fst (McpServer.registeredTools server) ++ map fst tools) ->
  registerTools tools server = Throw DuplicateOperation.
Proof.
  revert server. induction tools as [|[name tool] tools IH]; intros server Hreg Hdup.
  - exfalso. apply Hdup. simpl. now rewrite app_nil_r.
  - unfold registerTools in *. cbn [forEach]. unfold McpServer.tool at 1.
    destruct (McpServer.lookup name (McpServer.registeredTools server)) eqn:Hl;
      [reflexivity |].
    cbn [andThen]. apply IH; cbn [McpServer.registeredTools].
    + now apply NoDup_app_fresh.
    + intro Hnd. apply Hdup. rewrite map_app, <- app_assoc in Hnd. exact Hnd.
Qed.

(** X4. The module loads exactly when the names of the four tool objects are
    all distinct; with a name that occurs twice, loading throws
    DuplicateOperation and no server is exported. *)
Theorem module_loads_iff_distinct (W : Type) (projectManagement : list (string * Tool W))
  (pythonBridgeCode : list (string * string)) :
  ((exists registry, initialize projectManagement pythonBridgeCode = Normal registry)
   <-> NoDup (map fst (toolModules ++ projectManagement)))
  /\ (~ NoDup (map fst (toolModules ++ projectManagement)) ->
      initialize projectManagement pythonBridgeCode = Throw DuplicateOperation).
Proof.
  assert (Hclash : ~ NoDup (map fst (toolModules ++ projectManagement)) ->
                   initialize projectManagement pythonBridgeCode
                   = Throw DuplicateOperation).
  { intro Hdup. unfold initialize.
    rewrite registerAllTools_eq, registerTools_clash; [reflexivity | constructor |].
    exact Hdup. }
  split; [| exact Hclash]. split.
  - intros [registry Hload].
    destruct (ListDec.NoDup_dec String.string_dec
                (map fst (toolModules ++ projectManagement))) as [Hnd | Hdup];
      [exact Hnd |].
    rewrite (Hclash Hdup) in Hload. discriminate Hload.
  - intro Hnd. eexists. apply initialize_eq. exact Hnd.
Qed.

Lemma module_loads_iff_distinct_witness :
  initialize (W := nat)
    [("getNode", Build_Tool nat [] (fun _ => resolve (textResult "")) "")] []
  = Throw DuplicateOperation.
Proof.
  apply (module_loads_iff_distinct nat
           [("getNode", Build_Tool nat [] (fun _ => resolve (textResult "")) "")] []).
  intro Hnd.
  assert (H : distinct
                (map fst
                   (toolModules
                      ++ [("getNode",
                           Build_Tool nat [] (fun _ => resolve (textResult "")) "")]))
              = false) by (vm_compute; reflexivity).
  assert (D : forall names, NoDup names -> distinct names = true).
  { induction 1 as [|x l Hx Hl IHl]; simpl; [reflexivity |].
    rewrite IHl, andb_true_r. apply negb_true_iff. apply not_true_is_false.
    intro E. apply existsb_exists in E. destruct E as [y [Hy Heq]].
    apply String.eqb_eq in Heq. subst. contradiction. }
  rewrite (D _ Hnd) in H. discriminate H.
Defined.

(** ** The schemas *)

Lemma getOwn_insert (key k : string) (v : Value) (before after : list (string * Value)) :
  k <> key ->
  getOwn key (before ++ (k, v) :: after) = getOwn key (before ++ after).
Proof.
  intro Hne. induction before as [|[k' v'] before IH]; simpl.
  - destruct (String.eqb_spec k key); [contradiction | reflexivity].
  - destruct (String.eqb k' key); [reflexivity | exact IH].
Qed.

Lemma parse_shape_insert (shape : z.ZodRawShape) (k : string) (v : Value)
  (before after : list (string * Value)) :
  ~ In k (map fst shape) ->
  z.parse_shape z.infer z.parse shape (before ++ (k, v) :: after)
  = z.parse_shape z.infer z.parse shape (before ++ after).
Proof.
  induction shape as [|[key t] shape IH]; intro Hk; simpl; [reflexivity |].
  rewrite getOwn_insert by (intro E; apply Hk; now left).
  rewrite IH by (intro E; apply Hk; now right). reflexivity.
Qed.

(** X5. An argument whose name is not in the schema of an operation is
    ignored: with it or without it, the arguments are accepted or refused
    alike and the handler receives the same record. *)
Theorem unknown_argument_ignored (W : Type) (name : string) (tool : Tool W)
  (k : string) (v : Value) (before after : list (string * Value)) :
  In (name, tool) toolModules ->
  ~ In k (map fst (schema tool)) ->
  z.parseShape (schema tool) (VObject (before ++ (k, v) :: after))
  = z.parseShape (schema tool) (VObject (before ++ after)).
Proof.
  intros _ Hk. unfold z.parseShape. cbn [z.parse].
  now apply parse_shape_insert.
Qed.

Lemma unknown_argument_ignored_witness :
  z.parseShape basicOperations.execute.schema
    (VObject ([("nodeName", VString "Write1")] ++ ("frameRnage", VString "1-10") :: []))
  = z.parseShape basicOperations.execute.schema
      (VObject ([("nodeName", VString "Write1")] ++ [])).
Proof.
  apply (unknown_argument_ignored nat "execute"
           (Build_Tool nat basicOperations.execute.schema basicOperations.execute.handler
              basicOperations.execute.description)).
  - simpl. tauto.
  - simpl. intuition discriminate.
Defined.

Ltac accepts_empty :=
  let H := fresh "H" in
  cbn [fst snd schema]; split;
  [ intro H; first [ reflexivity | exfalso; apply H; vm_compute; reflexivity ]
  | intro H; first [ discriminate H | vm_compute; discriminate ] ].

(** X6. autoArrangeNodes is the only operation of the tool modules that
    accepts an empty argument object: every other one has a required
    argument and refuses it. *)
Theorem only_autoArrangeNodes_accepts_empty (W : Type) (name : string) (tool : Tool W) :
  In (name, tool) toolModules ->
  (z.parseShape (schema tool) (VObject []) <> None <-> name = "autoArrangeNodes").
Proof.
  assert (H : Forall (fun entry =>
                        z.parseShape (schema (snd entry)) (VObject []) <> None
                        <-> fst entry = "autoArrangeNodes") (@toolModules W)).
  { unfold toolModules, basicOperations.entries, nodeOrganization.entries,
      advancedVfxOperations.entries.
    repeat (apply Forall_cons; [accepts_empty |]). apply Forall_nil. }
  rewrite Forall_forall in H. intro Hin. exact (H _ Hin).
Qed.

Lemma only_autoArrangeNodes_accepts_empty_witness :
  z.parseShape nodeOrganization.createGroup.schema (VObject []) <> None
  <-> "createGroup" = "autoArrangeNodes".
Proof.
  apply (only_autoArrangeNodes_accepts_empty nat "createGroup"
           (Build_Tool nat nodeOrganization.createGroup.schema
              nodeOrganization.createGroup.handler
              nodeOrganization.createGroup.description)).
  simpl. tauto.
Defined.

(** ** The knob value of setKnobValue *)

Lemma parse_primitive (v : Value) :
  if primitive v
  then exists x, z.parse primitiveSchema v = Some x /\ z.reify primitiveSchema x = v
  else z.parse primitiveSchema v = None.
Proof.
  destruct v as [| |b|n|s|l|ps]; cbn; try reflexivity.
  - exists (inr (inr (inl b))). split; reflexivity.
  - destruct (Number.isNaN n); cbn; [reflexivity |].
    exists (inr (inl n)). split; reflexivity.
  - exists (inl s). split; reflexivity.
Qed.

Lemma traverse_primitive (l : list Value) :
  if forallb primitive l
  then exists xs, z.traverse (z.parse primitiveSchema) l = Some xs
                  /\ map (z.reify primitiveSchema) xs = l
  else z.traverse (z.parse primitiveSchema) l = None.
Proof.
  induction l as [|v l IH]; cbn [forallb z.traverse].
  - exists []. split; reflexivity.
  - pose proof (parse_primitive v) as Hv.
    destruct (primitive v); cbn [andb].
    + destruct Hv as [x [Hx Rx]]. rewrite Hx.
      destruct (forallb primitive l).
      * destruct IH as [xs [Hxs Rxs]]. rewrite Hxs. exists (x :: xs).
        split; [reflexivity | cbn [map fst snd]; now rewrite Rx, Rxs].
      * now rewrite IH.
    + now rewrite Hv.
Qed.

Lemma traverse_properties (ps : list (string * Value)) :
  if forallb (fun p => primitive (snd p)) ps
  then exists xs,
      z.traverse (fun p => option_map (pair (fst p)) (z.parse primitiveSchema (snd p))) ps
      = Some xs
      /\ map (fun p => (fst p, z.reify primitiveSchema (snd p))) xs = ps
  else z.traverse (fun p => option_map (pair (fst p)) (z.parse primitiveSchema (snd p))) ps
       = None.
Proof.
  induction ps as [|[k v] ps IH]; cbn [forallb z.traverse fst snd].
  - exists []. split; reflexivity.
  - pose proof (parse_primitive v) as Hv.
    destruct (primitive v); cbn [andb].
    + destruct Hv as [x [Hx Rx]]. rewrite Hx. cbn [option_map].
      destruct (forallb (fun p => primitive (snd p)) ps).
      * destruct IH as [xs [Hxs Rxs]]. rewrite Hxs. exists ((k, x) :: xs).
        split; [reflexivity | cbn [map fst snd]; now rewrite Rx, Rxs].
      * now rewrite IH.
    + now rewrite Hv.
Qed.

Lemma ownData_map {A : Type} (f : A -> Value) (xs : list (string * A)) :
  map (fun p => (fst p, f (snd p)))
    (filter (fun p => negb (String.eqb (fst p) "__proto__")) xs)
  = ownData (map (fun p => (fst p, f (snd p))) xs).
Proof.
  unfold ownData. induction xs as [|[k x] xs IH]; cbn [map filter fst snd].
  - reflexivity.
  - destruct (negb (String.eqb k "__proto__")); cbn [map fst snd]; now rewrite IH.
Qed.

(** What the schema of the knob value does with every value. *)
Lemma parse_knobValue (v : Value) :
  if flatValue v
  then exists x, z.parse knobValueSchema v = Some x
                 /\ z.reify knobValueSchema x = withoutProto v
  else z.parse knobValueSchema v = None.
Proof.
  destruct v as [| |b|n|s|l|ps]; cbn -[ownData]; try reflexivity.
  - exists (inr (inr (inl b))). split; reflexivity.
  - destruct (Number.isNaN n); cbn; [reflexivity |].
    exists (inr (inl n)). split; reflexivity.
  - exists (inl s). split; reflexivity.
  - pose proof (traverse_primitive l) as H.
    destruct (forallb primitive l).
    + destruct H as [xs [Hxs Rxs]].
      exists (inr (inr (inr (inl xs)))). split.
      * change (z.traverse (z.parse primitiveSchema) l) with
          (z.traverse (z.parse (z.union [z.string; z.number; z.boolean])) l) in Hxs.
        cbn in Hxs |- *. now rewrite Hxs.
      * cbn. f_equal. exact Rxs.
    + cbn in H |- *. now rewrite H.
  - pose proof (traverse_properties ps) as H.
    destruct (forallb (fun p => primitive (snd p)) ps).
    + destruct H as [xs [Hxs Rxs]].
      exists (inr (inr (inr (inr (inl
                (filter (fun p => negb (String.eqb (fst p) "__proto__")) xs)))))).
      split.
      * cbn in Hxs |- *. now rewrite Hxs.
      * cbn -[ownData filter]. f_equal.
        rewrite <- Rxs. apply (ownData_map (z.reify primitiveSchema)).
    + cbn in H |- *. now rewrite H.
Qed.

Lemma reify_knobValue (v : Value) (x : z.infer knobValueSchema) :
  z.parse knobValueSchema v = Some x -> z.reify knobValueSchema x = withoutProto v.
Proof.
  intro Hx. pose proof (parse_knobValue v) as H.
  destruct (flatValue v).
  - destruct H as [y [Hy Ry]]. rewrite Hx in Hy. inversion Hy; subst. exact Ry.
  - rewrite H in Hx. discriminate Hx.
Qed.

(** X7. The schema of the knob value accepts a string, a boolean, a number
    other than NaN, an array of those and an object whose properties all
    hold those, and nothing else: null, a nested array and a nested object
    are refused, and so is an object with a property named __proto__ that
    holds anything else. What it accepts reaches the handler unchanged, but
    for a property named __proto__, which is dropped after it was checked. *)
Theorem knobValueSchema_accepts_flat (v : Value) :
  (z.parse knobValueSchema v <> None <-> flatValue v = true)
  /\ (forall x, z.parse knobValueSchema v = Some x ->
                z.reify knobValueSchema x = withoutProto v).
Proof.
  pose proof (parse_knobValue v) as H.
  destruct (flatValue v).
  - destruct H as [x [Hx Rx]]. split.
    + split; [reflexivity | intros _; rewrite Hx; discriminate].
    + intros y Hy. now apply reify_knobValue.
  - split.
    + split; [intro E; contradiction | discriminate].
    + intros y Hy. now apply reify_knobValue.
Qed.

Example knobValueSchema_refuses :
  map (fun v => isSome (z.parse knobValueSchema v))
    [VNull; VArray [VArray []]; VObject [("a", VObject [])]; VArray [VNull];
     VNumber Number.NaN; VObject [("a", VNumber (Number.of_Z 1)); ("b", VString "x")];
     VArray []; VNumber (Number.Infinity false);
     VObject [("__proto__", VNull); ("a", VNumber (Number.of_Z 1))];
     VObject [("__proto__", VString "x"); ("a", VNumber (Number.of_Z 1))]]
  = [false; false; false; false; false; true; true; true; false; true].
Proof. vm_compute. reflexivity. Qed.

Lemma parseShape_cons (key : string) (t : z.ZodType) (rest : z.ZodRawShape)
  (properties : list (string * Value)) :
  z.parseShape ((key, t) :: rest) (VObject properties)
  = match z.parse t (getOwn key properties), z.parseShape rest (VObject properties) with
    | Some x, Some xs => Some (x, xs)
    | _, _ => None
    end.
Proof. reflexivity. Qed.

Lemma parse_string (v : Value) (s : string) : z.parse z.string v = Some s -> v = VString s.
Proof. destruct v; cbn; intro H; inversion H; reflexivity. Qed.

Lemma parseShape_setKnobValue (properties : list (string * Value))
  (args : z.inferShape basicOperations.setKnobValue.schema) :
  z.parseShape basicOperations.setKnobValue.schema (VObject properties) = Some args ->
  getOwn "nodeName" properties = VString (fst args)
  /\ getOwn "knobName" properties = VString (fst (snd args))
  /\ z.parse knobValueSchema (getOwn "value" properties) = Some (fst (snd (snd args))).
Proof.
  unfold basicOperations.setKnobValue.schema. rewrite !parseShape_cons.
  destruct (z.parse z.string (getOwn "nodeName" properties)) as [n|] eqn:En;
    [| discriminate].
  destruct (z.parse z.string (getOwn "knobName" properties)) as [k|] eqn:Ek;
    [| discriminate].
  destruct (z.parse knobValueSchema (getOwn "value" properties)) as [x|];
    [| discriminate].
  intro H. inversion H; subst. cbn [fst snd].
  split; [now apply parse_string | split; [now apply parse_string | reflexivity]].
Qed.

(** X8. The text of setKnobValue shows the request: the knob name, the node
    name and the JSON of the value that was sent (without a property named
    __proto__). *)
Theorem setKnobValue_echoes_request (W : Type) (properties : list (string * Value))
  (args : z.inferShape basicOperations.setKnobValue.schema) (w : W) :
  z.parseShape basicOperations.setKnobValue.schema (VObject properties) = Some args ->
  exists nodeName knobName : string,
    getOwn "nodeName" properties = VString nodeName
    /\ getOwn "knobName" properties = VString knobName
    /\ basicOperations.setKnobValue.handler args w
       = (Fulfilled
            (textResult
               ("Set knob " ++ quoted knobName ++ " on node " ++ quoted nodeName
                ++ " to value: "
                ++ interpolate
                     (JSON.stringify (withoutProto (getOwn "value" properties))))), w).
Proof.
  intro Hparse.
  destruct (parseShape_setKnobValue properties args Hparse) as [Hn [Hk Hv]].
  destruct args as [nodeName [knobName [value u]]]. cbn [fst snd] in *.
  exists nodeName, knobName. split; [exact Hn | split; [exact Hk |]].
  unfold basicOperations.setKnobValue.handler.
  now rewrite (reify_knobValue _ value Hv).
Qed.

Lemma setKnobValue_echoes_request_witness :
  exists nodeName knobName : string,
    getOwn "nodeName"
      [("nodeName", VString "Grade1"); ("knobName", VString "gamma");
       ("value", VArray [VNumber (Number.of_decimal 8 (-1)); VBoolean true])]
    = VString nodeName
    /\ getOwn "knobName"
         [("nodeName", VString "Grade1"); ("knobName", VString "gamma");
          ("value", VArray [VNumber (Number.of_decimal 8 (-1)); VBoolean true])]
       = VString knobName
    /\ basicOperations.setKnobValue.handler
         ("Grade1", ("gamma",
            (inr (inr (inr (inl [inr (inl (Number.of_decimal 8 (-1)));
                                 inr (inr (inl true))]))), tt))) 0
       = (Fulfilled
            (textResult
               ("Set knob " ++ quoted knobName ++ " on node " ++ quoted nodeName
                ++ " to value: "
                ++ interpolate
                     (JSON.stringify
                        (withoutProto
                           (getOwn "value"
                              [("nodeName", VString "Grade1"); ("knobName", VString "gamma");
                               ("value", VArray [VNumber (Number.of_decimal 8 (-1));
                                                 VBoolean true])]))))), 0).
Proof.
  apply (setKnobValue_echoes_request nat
           [("nodeName", VString "Grade1"); ("knobName", VString "gamma");
            ("value", VArray [VNumber (Number.of_decimal 8 (-1)); VBoolean true])]).
  vm_compute. reflexivity.
Defined.

(** ** What the handlers read of their arguments *)

(** X9. setupMotionBlur reads vectorMethod only when no vector node is
    named: with a vectorName that is not empty, two calls that differ in
    vectorMethod alone are answered alike; with vectorName absent or empty,
    the text names the method, VectorGenerator by default. *)
Theorem setupMotionBlur_vectorMethod (W : Type) (sourceName : string)
  (vectorName vectorMethod vectorMethod' : option string)
  (amount samples shutterAngle : option Number.t) (outputName : option string) (w : W) :
  let invoke (method : option string) :=
    advancedVfxOperations.setupMotionBlur.handler
      (sourceName, (vectorName, (method, (amount, (samples,
        (shutterAngle, (outputName, tt))))))) w in
  let text (source : string) :=
    "Set up motion blur for " ++ quoted sourceName ++ source
    ++ " with amount " ++ Number.toString (default (Number.of_decimal 10 (-1)) amount)
    ++ ", " ++ Number.toString (default (Number.of_Z 10) samples) ++ " samples, "
    ++ Number.toString (default (Number.of_Z 180) shutterAngle)
    ++ advancedVfxOperations.setupMotionBlur.degree ++ " shutter angle"
    ++ advancedVfxOperations.outputNode_suffix outputName in
  (forall name, vectorName = Some name -> name <> "" ->
     invoke vectorMethod = invoke vectorMethod'
     /\ invoke vectorMethod
        = (Fulfilled (textResult (text (" using vector node " ++ quoted name))), w))
  /\ (vectorName = None \/ vectorName = Some "" ->
      invoke vectorMethod
      = (Fulfilled
           (textResult (text (" using " ++ default "VectorGenerator" vectorMethod))), w)).
Proof.
  cbv zeta. unfold advancedVfxOperations.setupMotionBlur.handler. split.
  - intros name -> Hne. unfold ifString, truthy.
    destruct (String.eqb_spec name "") as [E|_]; [contradiction |].
    split; reflexivity.
  - intros [-> | ->]; reflexivity.
Qed.

Lemma setupMotionBlur_vectorMethod_witness :
  advancedVfxOperations.setupMotionBlur.handler
    ("Plate", (Some "Vectors1", (Some "OpticalFlow", (None, (None, (None, (None, tt))))))) 0
  = advancedVfxOperations.setupMotionBlur.handler
    ("Plate", (Some "Vectors1", (Some "External", (None, (None, (None, (None, tt))))))) 0.
Proof.
  apply (setupMotionBlur_vectorMethod nat "Plate" (Some "Vectors1") (Some "OpticalFlow")
           (Some "External") None None None None 0 ) with (name := "Vectors1").
  - reflexivity.
  - discriminate.
Defined.

(** X10. batchProcess reads of its input files their number only: two calls
    with as many input files, and the other arguments equal, are answered
    alike. *)
Theorem batchProcess_counts_files (W : Type) (scriptPath : string)
  (inputFiles inputFiles' : list string) (outputDir : string)
  (frameRange fileType : option string) (threads : option Number.t) (w : W) :
  List.length inputFiles = List.length inputFiles' ->
  advancedVfxOperations.batchProcess.handler
    (scriptPath, (inputFiles, (outputDir, (frameRange, (fileType, (threads, tt)))))) w
  = advancedVfxOperations.batchProcess.handler
      (scriptPath, (inputFiles', (outputDir, (frameRange, (fileType, (threads, tt)))))) w.
Proof.
  intro Hlen. unfold advancedVfxOperations.batchProcess.handler. now rewrite Hlen.
Qed.

Lemma batchProcess_counts_files_witness :
  advancedVfxOperations.batchProcess.handler
    ("grade.py", (["a.exr"; "b.exr"], ("/out", (None, (None, (None, tt)))))) 0
  = advancedVfxOperations.batchProcess.handler
    ("grade.py", (["c.dpx"; "d.dpx"], ("/out", (None, (None, (None, tt)))))) 0.
Proof.
  apply (batchProcess_counts_files nat "grade.py" ["a.exr"; "b.exr"] ["c.dpx"; "d.dpx"]
           "/out" None None None 0).
  reflexivity.
Defined.

(** X11. createBasicComp lists the effects that are on in the fixed order
    grade nodes, lens effects, film grain, whatever the order of the
    arguments; grade and grain are on unless false is given and the lens
    effects are off unless true is given; the clause is left out exactly
    when the three are off. *)
Theorem createBasicComp_effects (W : Type) (foregroundPath backgroundPath outputPath : string)
  (includeGrade includeLensEffects includeGrain : option bool)
  (colorSpace : option string) (w : W) :
  let effects :=
    map snd
      (filter fst
         [(default true includeGrade, "grade nodes");
          (default false includeLensEffects, "lens effects");
          (default true includeGrain, "film grain")]) in
  let clause :=
    match effects with
    | [] => ""
    | _ => " including " ++ join ", " effects
    end in
  advancedVfxOperations.createBasicComp.handler
    (foregroundPath, (backgroundPath, (outputPath, (includeGrade,
      (includeLensEffects, (includeGrain, (colorSpace, tt))))))) w
  = (Fulfilled
       (textResult
          ("Created basic comp with foreground " ++ quoted foregroundPath
           ++ " and background " ++ quoted backgroundPath ++ " in "
           ++ default "ACES" colorSpace ++ " color space with output to "
           ++ quoted outputPath ++ clause)), w)
  /\ (clause = "" <->
      includeGrade = Some false /\ includeLensEffects <> Some true
      /\ includeGrain = Some false).
Proof.
  cbv zeta. unfold advancedVfxOperations.createBasicComp.handler.
  destruct includeGrade as [[|]|], includeLensEffects as [[|]|],
    includeGrain as [[|]|]; cbn [default filter map fst snd push app List.length Nat.ltb
                                   Nat.leb];
    (split; [reflexivity |]);
    (split; [ intro H; try discriminate H;
              (split; [reflexivity | split; [discriminate | reflexivity]])
            | intros [H1 [H2 H3]]; try discriminate H1; try discriminate H3;
              try reflexivity; exfalso; apply H2; reflexivity ]).
Qed.

(** X12. createNode takes an empty name for no name, and an empty list of
    inputs for a list: the first call is answered as the call without name,
    the second is not answered as the call without inputs. *)
Theorem createNode_empty_arguments (W : Type) (nodeType : string) (name : option string)
  (position : option (z.infer positionSchema)) (inputs : option (list string)) (w : W) :
  basicOperations.createNode.handler (nodeType, (Some "", (position, (inputs, tt)))) w
  = basicOperations.createNode.handler (nodeType, (None, (position, (inputs, tt)))) w
  /\ basicOperations.createNode.handler (nodeType, (name, (position, (Some [], tt)))) w
     <> basicOperations.createNode.handler (nodeType, (name, (position, (None, tt)))) w.
Proof.
  unfold basicOperations.createNode.handler. split; [reflexivity |].
  unfold resolve, textResult. intro H. injection H as E.
  apply (f_equal String.length) in E.
  repeat (rewrite length_append in E || cbn [String.length ifObject join] in E). lia.
Qed.

(** ** setupKeying as served *)

Lemma parse_optional_enum (values : list string) (v : Value) (o : option string) :
  z.parse (z.optional (z.enum values)) v = Some o ->
  (v = VUndefined /\ o = None) \/ (exists s, v = VString s /\ o = Some s /\ In s values).
Proof.
  destruct v as [| |b|n|s|l|ps]; cbn; intro H; try discriminate H.
  - left. inversion H. split; reflexivity.
  - right. destruct (existsb (String.eqb s) values) eqn:E; [| discriminate H].
    inversion H. exists s. split; [reflexivity | split; [reflexivity |]].
    apply existsb_exists in E. destruct E as [x [Hin Heq]].
    apply String.eqb_eq in Heq. now subst.
Qed.

(** X13. In the text of a setupKeying call that passed its schema, the word
    before screen is green, blue or red, or else screenColor was custom and
    the word is customColor (#00FF00 when absent); the keyer is one of
    Primatte, Keylight, IBK and UltraKeyer. No other screenColor or keyerType
    reaches the text. *)
Theorem setupKeying_served_words (W : Type) (properties : list (string * Value))
  (args : z.inferShape advancedVfxOperations.setupKeying.schema) (w : W) :
  z.parseShape advancedVfxOperations.setupKeying.schema (VObject properties) = Some args ->
  exists sourceName keyer colour rest : string,
    advancedVfxOperations.setupKeying.handler args w
    = (Fulfilled
         (textResult
            ("Set up keying pipeline for " ++ quoted sourceName ++ " using " ++ keyer
             ++ " with " ++ colour ++ " screen" ++ rest)), w)
    /\ In keyer ["Primatte"; "Keylight"; "IBK"; "UltraKeyer"]
    /\ (In colour ["green"; "blue"; "red"]
        \/ (getOwn "screenColor" properties = VString "custom"
            /\ (getOwn "customColor" properties = VString colour
                \/ (getOwn "customColor" properties = VUndefined
                    /\ colour = "#00FF00")))).
Proof.
  unfold advancedVfxOperations.setupKeying.schema. rewrite !parseShape_cons.
  destruct (z.parse z.string (getOwn "sourceName" properties)) as [src|]; [| discriminate].
  destruct (z.parse _ (getOwn "screenColor" properties)) as [sc|] eqn:Esc; [| discriminate].
  destruct (z.parse _ (getOwn "customColor" properties)) as [cc|] eqn:Ecc; [| discriminate].
  destruct (z.parse _ (getOwn "keyerType" properties)) as [kt|] eqn:Ekt; [| discriminate].
  destruct (z.parse _ (getOwn "despill" properties)) as [ds|]; [| discriminate].
  destruct (z.parse _ (getOwn "edgeRefinement" properties)) as [er|]; [| discriminate].
  destruct (z.parse _ (getOwn "outputName" properties)) as [out|]; [| discriminate].
  intro H. inversion H; subst. clear H.
  unfold advancedVfxOperations.setupKeying.handler.
  exists src, (default "Keylight" kt),
    (if String.eqb (default "green" sc) "custom" then default "#00FF00" cc
     else default "green" sc).
  eexists. split; [reflexivity | split].
  - apply parse_optional_enum in Ekt.
    destruct Ekt as [[_ ->] | [s [_ [-> Hin]]]]; [simpl; tauto | exact Hin].
  - apply parse_optional_enum in Esc.
    destruct Esc as [[_ ->] | [s [Hs [-> Hin]]]].
    + left. simpl. tauto.
    + cbn [default]. simpl in Hin.
      destruct Hin as [<- | [<- | [<- | [<- | []]]]]; cbn [String.eqb Ascii.eqb Bool.eqb];
        try (left; simpl; tauto).
      right. split; [exact Hs |].
      destruct (getOwn "customColor" properties) as [| | | |c| |]; cbn in Ecc;
        try discriminate Ecc; inversion Ecc; subst; cbn [default]; auto.
Qed.

Lemma setupKeying_served_words_witness :
  exists sourceName keyer colour rest : string,
    advancedVfxOperations.setupKeying.handler
      ("Plate", (Some "custom", (Some "#123456", (None, (None, (None, (None, tt))))))) 0
    = (Fulfilled
         (textResult
            ("Set up keying pipeline for " ++ quoted sourceName ++ " using " ++ keyer
             ++ " with " ++ colour ++ " screen" ++ rest)), 0)
    /\ In keyer ["Primatte"; "Keylight"; "IBK"; "UltraKeyer"]
    /\ (In colour ["green"; "blue"; "red"]
        \/ (getOwn "screenColor"
              [("sourceName", VString "Plate"); ("screenColor", VString "custom");
               ("customColor", VString "#123456")] = VString "custom"
            /\ (getOwn "customColor"
                  [("sourceName", VString "Plate"); ("screenColor", VString "custom");
                   ("customColor", VString "#123456")] = VString colour
                \/ (getOwn "customColor"
                      [("sourceName", VString "Plate"); ("screenColor", VString "custom");
                       ("customColor", VString "#123456")] = VUndefined
                    /\ colour = "#00FF00")))).
Proof.
  apply (setupKeying_served_words nat
           [("sourceName", VString "Plate"); ("screenColor", VString "custom");
            ("customColor", VString "#123456")]).
  reflexivity.
Defined.

(** ** What a text tells of the arguments *)

(** X14. The text of getNode determines the node name: two names that are
    answered alike are the same name, also when they hold quotes,
    backslashes or control characters. *)
Theorem getNode_injective (W : Type)
  (args args' : z.inferShape basicOperations.getNode.schema) (w : W) :
  basicOperations.getNode.handler args w = basicOperations.getNode.handler args' w ->
  fst args = fst args'.
Proof.
  destruct args as [name u], args' as [name' u']. cbn [fst].
  unfold basicOperations.getNode.handler. rewrite !stringify2_mockNodeInfo.
  cbn [interpolate]. unfold resolve, textResult. intro H.
  assert (E : getNode_text name = getNode_text name') by congruence.
  apply (f_equal JSON.parse) in E. rewrite !parse_getNode_text in E.
  unfold basicOperations.getNode.mockNodeInfo in E. congruence.
Qed.

Lemma getNode_injective_witness :
  fst ("Blur1", tt) = fst ("Blur1", tt).
Proof.
  apply (getNode_injective nat ("Blur1", tt) ("Blur1", tt) 0). reflexivity.
Defined.

(** X15. The text of connectNodes does not determine the arguments: the
    names are put between quotes as they are, so two calls with different
    node names can be answered with the same text. *)
Theorem connectNodes_not_injective (W : Type) (w : W) :
  exists args args' : z.inferShape basicOperations.connectNodes.schema,
    fst args <> fst args'
    /\ basicOperations.connectNodes.handler args w
       = basicOperations.connectNodes.handler args' w.
Proof.
  exists ("A", (Guide.doubleQuotes "B' to input 0 of node 'C", (None, tt))),
         (Guide.doubleQuotes "A' to input 0 of node 'B", ("C", (None, tt))).
  split; [discriminate | vm_compute; reflexivity].
Qed.
